(** * PR review agent (scripts/pr-review-agent.mjs): a shallow embedding

    The script validates five environment variables, copies the platform
    token into [process.env.GH_TOKEN], starts one agent session with
    [query] and logs every message of the session's stream to the console.
    A second script of the repository has the same first lines and runs
    the review through two shell commands instead.

    The embedding:
    - [Js]: the values the scripts handle (JSON-decoded messages, strings,
      numbers) and the ECMAScript operations they apply to them;
    - [Host]: the process as the scripts see it (environment, console,
      agent runtime, shell, exit), as a state-and-completion monad;
    - [PrReviewAgent], [ClineCliReview]: the two scripts, statement by
      statement;
    - [Obs], [Scenario]: what the properties observe of a run, and the
      concrete messages and environments they are tried on. *)

From Stdlib Require Import ZArith QArith String Ascii List Lia DecimalString.
From stdpp Require Import base option gmap strings list.

Set Warnings "-register-all".
Local Close Scope Q_scope.
Local Open Scope string_scope.
Local Open Scope list_scope.
Local Open Scope Z_scope.

(* ===================================================================== *)
(** ** JavaScript values and the operations the script applies to them    *)
(* ===================================================================== *)

Module Js.

(** A message of the stream is a JSON-decoded value; [JUndefined] is what
    reading an absent property gives.  Strings are their UTF-8 bytes.  A
    number is the exact rational value of the (finite) double.  The
    properties of an object are listed in enumeration order, each key
    once. *)
Inductive jsval : Type :=
  | JUndefined
  | JNull
  | JBool (b : bool)
  | JNum (q : Q)
  | JStr (s : string)
  | JArr (elems : list jsval)
  | JObj (props : list (string * jsval)).

(** What the scripts can catch: the type errors of their own operations
    (reading a property of [undefined] or [null], calling what is not a
    function, looping over what is not iterable, converting to a string
    or number an object whose own [toString] hides the inherited one),
    a failure that comes from the agent runtime ([Rejected]: [query]
    throws, or a [next()] of its stream is rejected), and the error
    [execSync] throws for a command that fails, with the properties the
    second script reads from it. *)
Inductive exn : Type :=
  | TypeError_read (base : jsval) (prop : string)
  | TypeError_not_a_function (callee : string)
  | TypeError_not_iterable (expr : string)
  | TypeError_not_primitive
  | Rejected (reason : string)
  | ExecError (message : string) (stdout stderr : option string).

(** How the evaluation of an expression ends: with a value or with an
    error thrown.  [Unmodelled] marks the two conversions this embedding
    does not define: [Number::toString] of a number that is not an integer
    below 10^21, and the coercion of a string to a number. *)
Inductive result (A : Type) : Type :=
  | Value (a : A)
  | Raise (e : exn)
  | Unmodelled.
Arguments Value {A} a.
Arguments Raise {A} e.
Arguments Unmodelled {A}.

Definition of_option {A} (o : option A) : result A :=
  match o with Some a => Value a | None => Unmodelled end.

(** *** Characters *)

Definition dq : string := String (ascii_of_nat 34) EmptyString.
Definition nl : string := String (ascii_of_nat 10) EmptyString.
Definition backslash : string := String (ascii_of_nat 92) EmptyString.

(** A UTF-8 continuation byte, 10xxxxxx. *)
Definition is_continuation (c : ascii) : bool :=
  let n := nat_of_ascii c in (Nat.leb 128 n && Nat.ltb n 192)%bool.

(** The lead byte of a four-byte sequence: a code point above U+FFFF, two
    UTF-16 code units. *)
Definition is_astral_lead (c : ascii) : bool := Nat.leb 240 (nat_of_ascii c).

(** [s.length]: the number of UTF-16 code units of [s]. *)
Fixpoint utf16_length (s : string) : nat :=
  match s with
  | EmptyString => 0%nat
  | String c r =>
      ((if is_continuation c then 0 else if is_astral_lead c then 2 else 1)
       + utf16_length r)%nat
  end.

(** The code points of a string, as the string iterator yields them. *)
Fixpoint code_points (s : string) : list string :=
  match s with
  | EmptyString => []
  | String c r =>
      match code_points r with
      | String d x :: xs =>
          if is_continuation d then String c (String d x) :: xs
          else String c EmptyString :: String d x :: xs
      | other => String c EmptyString :: other
      end
  end.

(** [s.split(sep)] for a one-character separator. *)
Fixpoint split (sep : ascii) (s : string) : list string :=
  match s with
  | EmptyString => [EmptyString]
  | String c r =>
      if Ascii.eqb c sep then EmptyString :: split sep r
      else match split sep r with
           | x :: xs => String c x :: xs
           | [] => [String c EmptyString]
           end
  end.

(** *** Numbers *)

Definition string_of_Z (n : Z) : string :=
  NilZero.string_of_int (Z.to_int n).

Definition pow10 (k : nat) : Z := 10 ^ Z.of_nat k.

(** [Number::toString] on an integer of magnitude below 10^21: its decimal
    digits. *)
Definition Number_toString (q : Q) : option string :=
  let n := Qnum q in
  let d := Z.pos (Qden q) in
  if ((n mod d =? 0) && (Z.abs (n / d) <? pow10 21))%bool
  then Some (string_of_Z (n / d))
  else None.

Fixpoint zeros (k : nat) : string :=
  match k with O => EmptyString | S k' => String "0"%char (zeros k') end.

(** [Number.prototype.toFixed(f)]: the sign, then the integer [n] nearest
    to [x * 10^f] (the larger of two) with a point before its last [f]
    digits. *)
Definition toFixed (q : Q) (f : nat) : option string :=
  let a := Z.abs (Qnum q) in
  let d := Z.pos (Qden q) in
  let s := if Qnum q <? 0 then "-" else "" in
  if pow10 21 * d <=? a then Number_toString q
  else
    let n := (2 * a * pow10 f + d) / (2 * d) in
    let m := string_of_Z n in
    let m := if Nat.leb (String.length m) f
             then zeros (S f - String.length m) +:+ m else m in
    let k := String.length m in
    Some (if Nat.eqb f 0 then s +:+ m
          else s +:+ substring 0 (k - f) m +:+ "." +:+ substring (k - f) f m).

(** *** Conversions and property access *)

Definition result_map {A B} (f : A -> B) (r : result A) : result B :=
  match r with
  | Value a => Value (f a)
  | Raise e => Raise e
  | Unmodelled => Unmodelled
  end.

(** [f] on the elements of a list, first to last, up to the first that
    does not give a value. *)
Definition traverse {A B} (f : A -> result B) : list A -> result (list B) :=
  fix go (l : list A) : result (list B) :=
    match l with
    | [] => Value []
    | x :: rest =>
        match f x with
        | Value y => result_map (cons y) (go rest)
        | Raise e => Raise e
        | Unmodelled => Unmodelled
        end
    end.

Fixpoint own_property (props : list (string * jsval)) (p : string)
  : option jsval :=
  match props with
  | [] => None
  | (k, v) :: rest => if String.eqb k p then Some v else own_property rest p
  end.

(** An element of [Array.prototype.join]: [undefined] and [null] give the
    empty string. *)
Definition join_element (toString : jsval -> result string) (v : jsval)
  : result string :=
  match v with
  | JUndefined | JNull => Value ""
  | _ => toString v
  end.

(** [ToString(v)], as a template literal applies it to [${v}].  An array
    prints as its elements joined by a comma.  A plain object prints as
    [[object Object]] through the inherited [toString]; an own property
    of that name, which is data and cannot be called, hides it, and the
    conversion fails. *)
Fixpoint ToString (v : jsval) : result string :=
  match v with
  | JUndefined => Value "undefined"
  | JNull => Value "null"
  | JBool true => Value "true"
  | JBool false => Value "false"
  | JNum q => of_option (Number_toString q)
  | JStr s => Value s
  | JArr elems =>
      result_map (String.concat ",") (traverse (join_element ToString) elems)
  | JObj props =>
      match own_property props "toString" with
      | Some _ => Raise TypeError_not_primitive
      | None => Value "[object Object]"
      end
  end.

(** [elems.join(sep)]. *)
Definition Array_join (sep : string) (elems : list jsval) : result string :=
  result_map (String.concat sep) (traverse (join_element ToString) elems).

(** [ToBoolean(v)]. *)
Definition truthy (v : jsval) : bool :=
  match v with
  | JUndefined | JNull => false
  | JBool b => b
  | JNum q => negb (Qnum q =? 0)
  | JStr s => negb (String.eqb s "")
  | JArr _ | JObj _ => true
  end.

(** [v === s] for a string literal [s]. *)
Definition strict_eq_string (v : jsval) (s : string) : bool :=
  match v with JStr t => String.eqb t s | _ => false end.

(** [v.p], for the property names the script reads.  None of them is an
    array index or a property of a built-in prototype; [length] is the
    own property of arrays and strings. *)
Definition get (v : jsval) (p : string) : result jsval :=
  match v with
  | JUndefined | JNull => Raise (TypeError_read v p)
  | JObj props => Value (default JUndefined (own_property props p))
  | JArr elems =>
      Value (if String.eqb p "length"
              then JNum (inject_Z (Z.of_nat (length elems))) else JUndefined)
  | JStr s =>
      Value (if String.eqb p "length"
              then JNum (inject_Z (Z.of_nat (utf16_length s))) else JUndefined)
  | JBool _ | JNum _ => Value JUndefined
  end.

(** [v > 0].  A plain object converts through its string, which is not
    a number.  A string operand, or an array (which converts through its
    string), would need the string-to-number coercion. *)
Definition greater_than_zero (v : jsval) : result bool :=
  match v with
  | JUndefined => Value false
  | JNull => Value false
  | JBool b => Value b
  | JNum q => Value (0 <? Qnum q)
  | JObj _ => result_map (fun _ => false) (ToString v)
  | JStr _ | JArr _ => Unmodelled
  end.

(** The values a [for ... of] loop over [v] visits. *)
Definition iterate (expr : string) (v : jsval) : result (list jsval) :=
  match v with
  | JArr elems => Value elems
  | JStr s => Value (JStr <$> code_points s)
  | JUndefined | JNull | JBool _ | JNum _ | JObj _ =>
      Raise (TypeError_not_iterable expr)
  end.

(** [v.toFixed(f)], with [callee] the text of the callee expression. *)
Definition call_toFixed (callee : string) (v : jsval) (f : nat)
  : result string :=
  match v with
  | JNum q => of_option (toFixed q f)
  | JUndefined | JNull => Raise (TypeError_read v "toFixed")
  | _ => Raise (TypeError_not_a_function callee)
  end.

(** [v.join(sep)]. *)
Definition call_join (callee : string) (v : jsval) (sep : string)
  : result string :=
  match v with
  | JArr elems => Array_join sep elems
  | JUndefined | JNull => Raise (TypeError_read v "join")
  | _ => Raise (TypeError_not_a_function callee)
  end.

(** [v.map(f)]: on an array, [f] is applied to the elements in order. *)
Definition call_map (callee : string) (v : jsval)
    (f : jsval -> result jsval) : result (list jsval) :=
  match v with
  | JArr elems => traverse f elems
  | JUndefined | JNull => Raise (TypeError_read v "map")
  | _ => Raise (TypeError_not_a_function callee)
  end.

(** [!v] for a value read from [process.env], or a component of a
    destructured array: a string or [undefined]. *)
Definition falsy (v : option string) : bool :=
  match v with
  | None => true
  | Some s => String.eqb s ""
  end.

(** [${v}] for such a value. *)
Definition interpolate (v : option string) : string :=
  match v with
  | Some s => s
  | None => "undefined"
  end.

(** [${v}] for a value of a message. *)
Definition interpolation (v : jsval) : result string := ToString v.

(** [v.split("/")]. *)
Definition call_split (v : option string) (sep : ascii)
  : result (list string) :=
  match v with
  | Some s => Value (split sep s)
  | None => Raise (TypeError_read JUndefined "split")
  end.

(** *** JSON.stringify(value, null, 2) *)

Definition hex_digit (n : nat) : ascii :=
  ascii_of_nat (if Nat.ltb n 10 then 48 + n else 87 + n).

(** One character of a JSON string literal. *)
Definition json_escape (c : ascii) : string :=
  let n := nat_of_ascii c in
  if Nat.eqb n 8 then backslash +:+ "b"
  else if Nat.eqb n 9 then backslash +:+ "t"
  else if Nat.eqb n 10 then backslash +:+ "n"
  else if Nat.eqb n 12 then backslash +:+ "f"
  else if Nat.eqb n 13 then backslash +:+ "r"
  else if Nat.eqb n 34 then backslash +:+ dq
  else if Nat.eqb n 92 then backslash +:+ backslash
  else if Nat.ltb n 32
       then backslash +:+ "u00"
            +:+ String (hex_digit (n / 16)) (String (hex_digit (n mod 16)) "")
  else String c "".

Fixpoint json_escape_all (s : string) : string :=
  match s with
  | EmptyString => EmptyString
  | String c r => json_escape c +:+ json_escape_all r
  end.

Definition QuoteJSONString (s : string) : string :=
  dq +:+ json_escape_all s +:+ dq.

Definition gap : string := "  ".

(** The text between a pair of brackets: nothing when there is no member,
    else one member per line, indented one level under [stepback]. *)
Definition json_block (open close stepback : string) (partial : list string)
  : string :=
  match partial with
  | [] => open +:+ close
  | _ =>
      let indent := stepback +:+ gap in
      open +:+ nl +:+ indent
      +:+ String.concat ("," +:+ nl +:+ indent) partial
      +:+ nl +:+ stepback +:+ close
  end.

(** The members that have a text: a property whose value is [undefined]
    is left out of an object. *)
Fixpoint members (partial : list (option string)) : list string :=
  match partial with
  | [] => []
  | Some member :: rest => member :: members rest
  | None :: rest => members rest
  end.

(** [SerializeJSONProperty]: [Some None] is JavaScript's [undefined] (no
    text), the outer [None] is a number outside [Number_toString]. *)
Fixpoint SerializeJSONProperty (stepback : string) (v : jsval)
  : option (option string) :=
  match v with
  | JUndefined => Some None
  | JNull => Some (Some "null")
  | JBool true => Some (Some "true")
  | JBool false => Some (Some "false")
  | JNum q => Some <$> Number_toString q
  | JStr s => Some (Some (QuoteJSONString s))
  | JArr elems =>
      partial ← mapM (fun x =>
                   default "null" <$> SerializeJSONProperty (stepback +:+ gap) x)
                 elems;
      Some (Some (json_block "[" "]" stepback partial))
  | JObj props =>
      partial ← mapM (fun kv =>
                   match kv with
                   | (k, x) =>
                       fmap (fun strP => QuoteJSONString k +:+ ": " +:+ strP)
                       <$> SerializeJSONProperty (stepback +:+ gap) x
                   end)
                 props;
      Some (Some (json_block "{" "}" stepback (members partial)))
  end.

(** [JSON.stringify(v, null, 2)], printed: [console.log] of [undefined]
    writes the word. *)
Definition JSON_stringify_2 (v : jsval) : result string :=
  of_option (default "undefined" <$> SerializeJSONProperty "" v).

End Js.

(* ===================================================================== *)
(** ** The process: environment, console, agent runtime, exit             *)
(* ===================================================================== *)

Module Host.
Import Js.

(** The asynchronous iterable [query] returns, as the calls of [next()]
    unfold it: the stream is done, yields a message, or fails.  The
    streams are the finite ones; one that neither ends nor fails leaves
    the script waiting and has no run here. *)
Inductive stream : Type :=
  | done
  | yield (message : jsval) (rest : stream)
  | reject (error : exn).

(** The stream that yields the messages of [ms] in order, then goes on as
    [tail]. *)
Fixpoint yield_all (ms : list jsval) (tail : stream) : stream :=
  match ms with
  | [] => tail
  | m :: rest => yield m (yield_all rest tail)
  end.

(** The [options] of the one [query] call. *)
Record query_options : Type := {
  systemPrompt : string;
  cwd : string;
  env : gmap string string;
  permissionMode : string;
  maxTurns : Z;
  model : string;
}.

Record query_args : Type := {
  prompt : string;
  options : query_options;
}.

(** The options of an [execSync] call; [env] and [cwd] are given in the
    second call of the second script only. *)
Record exec_options : Type := {
  encoding : string;
  stdio : string;
  exec_env : option (gmap string string);
  exec_cwd : option string;
}.

(** What the script does to the world outside it, in the order it does
    it.  [Log] is [console.log] (standard output), [LogError] and
    [LogErrorWith] are [console.error] (standard error), with one
    argument or a label and a caught error. *)
Inductive effect : Type :=
  | Log (text : string)
  | LogError (text : string)
  | LogErrorWith (label : string) (error : exn)
  | SetEnv (name value : string)
  | Query (args : query_args)
  | Exec (command : string) (opts : exec_options).

(** The mutable state: [process.env] and the effects so far, oldest
    first. *)
Record world : Type := {
  process_env : gmap string string;
  effects : list effect;
}.

(** The part of the process the scripts do not change: the working
    directory [process.cwd()], the agent runtime behind [query], which
    fails to start or gives the session's stream, and the shell behind
    [execSync], which fails or gives the output of the command. *)
Record host : Type := {
  process_cwd : string;
  runtime : query_args -> exn + stream;
  shell : string -> exec_options -> exn + string;
}.

(** How the execution of a statement ends: normally, with an error
    thrown, or with [process.exit(code)].  [Unknown] is a run that
    reached an [Unmodelled] conversion. *)
Inductive completion (A : Type) : Type :=
  | Normal (a : A)
  | Throw (e : exn)
  | Exit (code : Z)
  | Unknown.
Arguments Normal {A} a.
Arguments Throw {A} e.
Arguments Exit {A} code.
Arguments Unknown {A}.

Definition M (A : Type) : Type := world -> completion A * world.

Definition ret {A} (a : A) : M A := fun w => (Normal a, w).

Definition bind {A B} (m : M A) (k : A -> M B) : M B :=
  fun w =>
    match m w with
    | (Normal a, w') => k a w'
    | (Throw e, w') => (Throw e, w')
    | (Exit c, w') => (Exit c, w')
    | (Unknown, w') => (Unknown, w')
    end.

(** An expression without effects. *)
Definition eval {A} (r : result A) : M A :=
  fun w =>
    (match r with
     | Value a => Normal a
     | Raise e => Throw e
     | Unmodelled => Unknown
     end, w).

Definition perform (e : effect) : M unit :=
  fun w => (Normal tt,
            {| process_env := process_env w; effects := effects w ++ [e] |}).

Definition console_log (text : string) : M unit := perform (Log text).
Definition console_error (text : string) : M unit := perform (LogError text).
Definition console_error_with (label : string) (error : exn) : M unit :=
  perform (LogErrorWith label error).

(** [process.exit(code)]: nothing after it runs, no [catch] sees it. *)
Definition process_exit (code : Z) : M unit := fun w => (Exit code, w).

(** [process.env.NAME]: absent reads as [undefined]. *)
Definition getenv (name : string) : M (option string) :=
  fun w => (Normal (process_env w !! name), w).

(** [process.env.NAME = value]. *)
Definition setenv (name value : string) : M unit :=
  fun w => (Normal tt,
            {| process_env := <[name := value]> (process_env w);
               effects := effects w ++ [SetEnv name value] |}).

Definition current_env : M (gmap string string) :=
  fun w => (Normal (process_env w), w).

(** [query(args)]: the call is made, then the runtime answers. *)
Definition query (h : host) (args : query_args) : M stream :=
  fun w =>
    (match runtime h args with inl e => Throw e | inr s => Normal s end,
     {| process_env := process_env w; effects := effects w ++ [Query args] |}).

(** [execSync(command, opts)]. *)
Definition execSync (h : host) (command : string) (opts : exec_options)
  : M string :=
  fun w =>
    (match shell h command opts with inl e => Throw e | inr out => Normal out end,
     {| process_env := process_env w;
        effects := effects w ++ [Exec command opts] |}).

(** [try { body } catch (error) { handler }]. *)
Definition try_catch {A} (body : M A) (handler : exn -> M A) : M A :=
  fun w =>
    match body w with
    | (Throw e, w') => handler e w'
    | other => other
    end.

(** [if (c) { body }] with no [else]. *)
Definition when (c : bool) (body : M unit) : M unit :=
  if c then body else ret tt.

(** [for (const x of xs) { body }] over the values an iterator gave. *)
Fixpoint for_of {A} (xs : list A) (body : A -> M unit) : M unit :=
  match xs with
  | [] => ret tt
  | x :: rest => bind (body x) (fun _ => for_of rest body)
  end.

(** [for await (const message of s) { body }]. *)
Fixpoint for_await (s : stream) (body : jsval -> M unit) : M unit :=
  match s with
  | done => ret tt
  | yield message rest => bind (body message) (fun _ => for_await rest body)
  | reject error => eval (Raise error)
  end.

(** The exit code of the process once the script has run to [c]: 0 when
    it runs to its end, the argument of [process.exit], 1 for an error
    nothing caught. *)
Definition exit_code (c : completion unit) : option Z :=
  match c with
  | Normal _ => Some 0
  | Exit code => Some code
  | Throw _ => Some 1
  | Unknown => None
  end.

End Host.

Declare Scope js_scope.
Delimit Scope js_scope with js.
Notation "x ← y ; z" := (Host.bind y (fun x => z))
  (at level 20, y at level 100, z at level 200, only parsing) : js_scope.
Notation "y ;; z" := (Host.bind y (fun _ => z))
  (at level 100, z at level 200, only parsing, right associativity) : js_scope.

(* ===================================================================== *)
(** ** scripts/pr-review-agent.mjs                                        *)
(* ===================================================================== *)

Module PrReviewAgent.
Import Js Host.
Local Open Scope js_scope.

(** The constants the top of the script defines. *)
Record constants : Type := {
  ANTHROPIC_API_KEY : option string;
  GITHUB_TOKEN : option string;
  GITHUB_REPOSITORY : option string;
  PR_NUMBER : option string;
  HEAD_SHA : option string;
  owner : option string;
  repo : option string;
}.

(** Lines 11 to 37: the environment checks, the split of the repository
    identifier, [GH_TOKEN], the first log line. *)
Definition startup : M constants :=
  ANTHROPIC_API_KEY ← getenv "ANTHROPIC_API_KEY";
  GITHUB_TOKEN ← getenv "GITHUB_TOKEN";
  GITHUB_REPOSITORY ← getenv "GITHUB_REPOSITORY";
  PR_NUMBER ← getenv "PR_NUMBER";
  HEAD_SHA ← getenv "HEAD_SHA";
  when (falsy ANTHROPIC_API_KEY) (
    console_error "Error: ANTHROPIC_API_KEY environment variable is required";;
    process_exit 1);;
  when (falsy GITHUB_TOKEN) (
    console_error "Error: GITHUB_TOKEN environment variable is required";;
    process_exit 1);;
  when (falsy GITHUB_REPOSITORY || falsy PR_NUMBER || falsy HEAD_SHA)%bool (
    console_error "Error: GitHub environment variables missing";;
    process_exit 1);;
  parts ← eval (call_split GITHUB_REPOSITORY "/");
  let owner := parts !! 0%nat in
  let repo := parts !! 1%nat in
  setenv "GH_TOKEN" (interpolate GITHUB_TOKEN);;
  console_log ("Starting AI-powered review for "
               +:+ interpolate GITHUB_REPOSITORY +:+ "#" +:+ interpolate PR_NUMBER);;
  ret {| ANTHROPIC_API_KEY := ANTHROPIC_API_KEY;
         GITHUB_TOKEN := GITHUB_TOKEN;
         GITHUB_REPOSITORY := GITHUB_REPOSITORY;
         PR_NUMBER := PR_NUMBER;
         HEAD_SHA := HEAD_SHA;
         owner := owner;
         repo := repo |}.

Definition lines (l : list string) : string := String.concat nl l.

(** The system prompt, with the four values the template interpolates. *)
Definition SYSTEM_PROMPT (owner repo PR_NUMBER HEAD_SHA : option string)
  : string :=
  lines [
    "You are an expert code reviewer for the Cline project - an AI-powered coding assistant built as a VSCode extension.";
    "";
    "Your role is to autonomously review pull requests by:";
    "1. Understanding what changed and why";
    "2. Identifying bugs, security issues, and code quality problems";
    "3. Checking architectural decisions and design patterns";
    "4. Ensuring code follows best practices";
    "5. Navigating the codebase to understand context when needed";
    "";
    "Technical context about Cline:";
    "- TypeScript/JavaScript codebase with VSCode extension";
    "- Uses gRPC and Protocol Buffers for communication";
    "- Has a React webview UI";
    "- Integrates with various AI providers (Anthropic, OpenAI, etc.)";
    "- Uses Model Context Protocol (MCP) for extensibility";
    "";
    "Available tools you can use:";
    "- Bash: Execute gh CLI commands to interact with GitHub";
    "- Read: Read files from the repository";
    "- Grep: Search through code";
    "- Glob: Find files matching patterns";
    "- Write: Create temporary files if needed";
    "";
    "GitHub CLI commands you'll need:";
    "- Get PR diff: gh api repos/" +:+ interpolate owner +:+ "/"
      +:+ interpolate repo +:+ "/pulls/" +:+ interpolate PR_NUMBER +:+ "/files";
    "- Get changed files: gh api repos/" +:+ interpolate owner +:+ "/"
      +:+ interpolate repo +:+ "/pulls/" +:+ interpolate PR_NUMBER +:+ "/files";
    "- Post inline comment: gh api repos/" +:+ interpolate owner +:+ "/"
      +:+ interpolate repo +:+ "/pulls/" +:+ interpolate PR_NUMBER
      +:+ "/reviews --method POST --input <file>";
    "- Post review summary: gh pr review " +:+ interpolate PR_NUMBER
      +:+ " --repo " +:+ interpolate owner +:+ "/" +:+ interpolate repo
      +:+ " [--approve|--request-changes|--comment] --body " +:+ dq +:+ "..."
      +:+ dq;
    "";
    "Review approach:";
    "1. Start by using Bash to run: gh api repos/" +:+ interpolate owner
      +:+ "/" +:+ interpolate repo +:+ "/pulls/" +:+ interpolate PR_NUMBER
      +:+ "/files";
    "   This will show you all changed files and their diffs";
    "2. For each changed file, understand what it does by reading the full file if needed (use Read tool)";
    "3. Navigate to related files to understand the broader context";
    "4. Use your AI intelligence to identify:";
    "   - Logic errors and bugs";
    "   - Security vulnerabilities (SQL injection, XSS, credential leaks, etc.)";
    "   - Race conditions and concurrency issues";
    "   - Memory leaks and resource management issues";
    "   - Breaking API changes";
    "   - Missing error handling";
    "   - Poor code organization or unclear logic";
    "   - Performance issues";
    "   - Accessibility problems (for UI code)";
    "5. Post specific inline comments on lines that need attention using gh CLI";
    "   For inline comments, create a JSON file with this structure:";
    "   {";
    "     " +:+ dq +:+ "commit_id" +:+ dq +:+ ": " +:+ dq
      +:+ interpolate HEAD_SHA +:+ dq +:+ ",";
    "     " +:+ dq +:+ "event" +:+ dq +:+ ": " +:+ dq +:+ "COMMENT" +:+ dq
      +:+ ",";
    "     " +:+ dq +:+ "comments" +:+ dq +:+ ": [{" +:+ dq +:+ "path" +:+ dq
      +:+ ": " +:+ dq +:+ "..." +:+ dq +:+ ", " +:+ dq +:+ "line" +:+ dq
      +:+ ": N, " +:+ dq +:+ "side" +:+ dq +:+ ": " +:+ dq +:+ "RIGHT" +:+ dq
      +:+ ", " +:+ dq +:+ "body" +:+ dq +:+ ": " +:+ dq +:+ "..." +:+ dq +:+ "}]";
    "   }";
    "   Save to /tmp/review-<timestamp>.json and use:";
    "   gh api repos/" +:+ interpolate owner +:+ "/" +:+ interpolate repo
      +:+ "/pulls/" +:+ interpolate PR_NUMBER
      +:+ "/reviews --method POST --input /tmp/review-<timestamp>.json";
    "6. Provide an overall review summary at the end using:";
    "   gh pr review " +:+ interpolate PR_NUMBER +:+ " --repo "
      +:+ interpolate owner +:+ "/" +:+ interpolate repo
      +:+ " [--approve|--request-changes|--comment] --body " +:+ dq +:+ "..."
      +:+ dq;
    "";
    "Guidelines:";
    "- Focus on meaningful issues that could cause real problems";
    "- Be constructive and specific in your feedback";
    "- Suggest concrete fixes when possible";
    "- Don't nitpick style unless it affects readability";
    "- If something is unclear, read more files to understand context";
    "- Consider the full impact of changes, not just local effects";
    "";
    "When you're done reviewing, use gh pr review to post your final summary with:";
    "- --approve: No significant issues found";
    "- --comment: Minor issues that should be addressed but don't block merge";
    "- --request-changes: Serious issues that must be fixed before merge";
    "";
    "Begin by examining what changed in this PR using the gh CLI."
  ].

(** The body of the inner loop, over the segments of an assistant
    message. *)
Definition on_content (content : jsval) : M unit :=
  type ← eval (get content "type");
  if strict_eq_string type "text" then
    text ← eval (get content "text");
    text ← eval (interpolation text);
    console_log (nl +:+ "[Assistant] " +:+ text +:+ nl)
  else
    type ← eval (get content "type");
    if strict_eq_string type "tool_use" then
      name ← eval (get content "name");
      name ← eval (interpolation name);
      console_log (nl +:+ "[Tool Use] " +:+ name);;
      input ← eval (get content "input");
      json ← eval (JSON_stringify_2 input);
      console_log json
    else ret tt.

(** The branch of a result message. *)
Definition on_result (message : jsval) : M unit :=
  console_log (nl +:+ "=== Review Completed ===");;
  duration_ms ← eval (get message "duration_ms");
  duration_ms ← eval (interpolation duration_ms);
  console_log ("Duration: " +:+ duration_ms +:+ "ms");;
  num_turns ← eval (get message "num_turns");
  num_turns ← eval (interpolation num_turns);
  console_log ("Turns: " +:+ num_turns);;
  total_cost_usd ← eval (get message "total_cost_usd");
  cost ← eval (call_toFixed "message.total_cost_usd.toFixed" total_cost_usd 4);
  console_log ("Cost: $" +:+ cost);;
  subtype ← eval (get message "subtype");
  status ← eval (interpolation subtype);
  console_log ("Status: " +:+ status);;
  (if strict_eq_string subtype "success" then
     result ← eval (get message "result");
     result ← eval (interpolation result);
     console_log (nl +:+ "Result: " +:+ result)
   else if strict_eq_string subtype "error_max_turns" then
     console_log (nl +:+ "⚠️ Review reached maximum turns limit")
   else if strict_eq_string subtype "error_during_execution" then
     console_log (nl +:+ "❌ Error occurred during review execution")
   else ret tt);;
  permission_denials ← eval (get message "permission_denials");
  denied ← (if truthy permission_denials then
              len ← eval (get permission_denials "length");
              eval (greater_than_zero len)
            else ret false);
  when denied (
    len ← eval (get permission_denials "length");
    len ← eval (interpolation len);
    console_log (nl +:+ "⚠️ Permission denials: " +:+ len)).

(** The branch of the system message that opens a session. *)
Definition on_system_init (message : jsval) : M unit :=
  console_log "[System] Initialized";;
  model ← eval (get message "model");
  model ← eval (interpolation model);
  console_log ("  Model: " +:+ model);;
  cwd ← eval (get message "cwd");
  cwd ← eval (interpolation cwd);
  console_log ("  Working Directory: " +:+ cwd);;
  tools ← eval (get message "tools");
  tools ← eval (call_join "message.tools.join" tools ", ");
  console_log ("  Tools: " +:+ tools);;
  mcp_servers ← eval (get message "mcp_servers");
  names ← eval (call_map "message.mcp_servers.map" mcp_servers
                   (fun s => get s "name"));
  names ← eval (Array_join ", " names);
  console_log ("  MCP Servers: "
               +:+ (if String.eqb names "" then "none" else names)).

(** The body of the [for await] loop: one message of the stream. *)
Definition on_message (message : jsval) : M unit :=
  type ← eval (get message "type");
  if strict_eq_string type "assistant" then
    inner ← eval (get message "message");
    content ← eval (get inner "content");
    segments ← eval (iterate "message.message.content" content);
    for_of segments on_content
  else if strict_eq_string type "result" then
    on_result message
  else
    subtype ← (if strict_eq_string type "system"
               then eval (get message "subtype") else ret JUndefined);
    if (strict_eq_string type "system" && strict_eq_string subtype "init")%bool
    then on_system_init message
    else ret tt.

(** The argument of the [query] call, with [process.env] as it is when
    the call is made. *)
Definition query_call_args (h : host) (SYSTEM_PROMPT : string) (c : constants)
    (process_env : gmap string string) : query_args :=
  {| prompt :=
       "Review pull request #" +:+ interpolate (PR_NUMBER c)
       +:+ " for repository " +:+ interpolate (GITHUB_REPOSITORY c)
       +:+ ". The PR is at commit " +:+ interpolate (HEAD_SHA c)
       +:+ ". Start by examining what changed using the gh CLI commands available to you.";
     options := {|
       systemPrompt := SYSTEM_PROMPT;
       cwd := process_cwd h;
       env := process_env;
       permissionMode := "bypassPermissions";
       maxTurns := 25;
       model := "claude-3-5-sonnet-latest";
     |};
  |}.

(** [runAgent()], with the constants of the script it refers to. *)
Definition runAgent (h : host) (SYSTEM_PROMPT : string) (c : constants)
  : M unit :=
  try_catch
    (process_env ← current_env;
     result ← query h (query_call_args h SYSTEM_PROMPT c process_env);
     console_log (nl +:+ "=== Starting PR Review ===" +:+ nl);;
     for_await result on_message;;
     console_log (nl +:+ "✓ PR Review Agent completed successfully"))
    (fun error =>
       console_error_with "Fatal error:" error;;
       process_exit 1).

(** The script, top to bottom. *)
Definition main (h : host) : M unit :=
  c ← startup;
  runAgent h (SYSTEM_PROMPT (owner c) (repo c) (PR_NUMBER c) (HEAD_SHA c)) c.

(** A run of the script in the environment [e]: how it ends, and the
    world it leaves. *)
Definition run (h : host) (e : gmap string string) : completion unit * world :=
  main h {| process_env := e; effects := [] |}.

End PrReviewAgent.

(* ===================================================================== *)
(** ** The second script: the review through the Cline CLI                *)
(* ===================================================================== *)

Module ClineCliReview.
Import Js Host.
Local Open Scope js_scope.

(** Lines 11 to 37 are those of the first script. *)
Definition startup : M PrReviewAgent.constants := PrReviewAgent.startup.

Definition lines (l : list string) : string := String.concat nl l.

(** The prompt, with the values the template interpolates. *)
Definition REVIEW_PROMPT
    (owner repo PR_NUMBER GITHUB_REPOSITORY HEAD_SHA : option string)
  : string :=
  lines [
    "You are an expert code reviewer for the Cline project - an AI-powered coding assistant built as a VSCode extension.";
    "";
    "Your task is to autonomously review pull request #"
      +:+ interpolate PR_NUMBER +:+ " for repository "
      +:+ interpolate GITHUB_REPOSITORY +:+ " at commit " +:+ interpolate HEAD_SHA
      +:+ ".";
    "";
    "TECHNICAL CONTEXT:";
    "- TypeScript/JavaScript codebase with VSCode extension";
    "- Uses gRPC and Protocol Buffers for communication";
    "- Has a React webview UI";
    "- Integrates with various AI providers (Anthropic, OpenAI, etc.)";
    "- Uses Model Context Protocol (MCP) for extensibility";
    "";
    "AVAILABLE TOOLS:";
    "- Bash: Execute gh CLI commands to interact with GitHub";
    "- Read: Read files from the repository";
    "- Grep: Search through code";
    "- Glob: Find files matching patterns";
    "";
    "GITHUB CLI COMMANDS YOU'LL NEED:";
    "1. Get PR files and diffs:";
    "   gh api repos/" +:+ interpolate owner +:+ "/" +:+ interpolate repo
      +:+ "/pulls/" +:+ interpolate PR_NUMBER +:+ "/files";
    "";
    "2. Post inline comment (create JSON file first):";
    "   {";
    "     " +:+ dq +:+ "commit_id" +:+ dq +:+ ": " +:+ dq
      +:+ interpolate HEAD_SHA +:+ dq +:+ ",";
    "     " +:+ dq +:+ "event" +:+ dq +:+ ": " +:+ dq +:+ "COMMENT" +:+ dq
      +:+ ",";
    "     " +:+ dq +:+ "comments" +:+ dq +:+ ": [{" +:+ dq +:+ "path" +:+ dq
      +:+ ": " +:+ dq +:+ "file.js" +:+ dq +:+ ", " +:+ dq +:+ "line" +:+ dq
      +:+ ": 10, " +:+ dq +:+ "side" +:+ dq +:+ ": " +:+ dq +:+ "RIGHT" +:+ dq
      +:+ ", " +:+ dq +:+ "body" +:+ dq +:+ ": " +:+ dq +:+ "comment" +:+ dq
      +:+ "}]";
    "   }";
    "   Save to /tmp/review-<timestamp>.json then:";
    "   gh api repos/" +:+ interpolate owner +:+ "/" +:+ interpolate repo
      +:+ "/pulls/" +:+ interpolate PR_NUMBER
      +:+ "/reviews --method POST --input /tmp/review-<timestamp>.json";
    "";
    "3. Post final review summary:";
    "   gh pr review " +:+ interpolate PR_NUMBER +:+ " --repo "
      +:+ interpolate owner +:+ "/" +:+ interpolate repo
      +:+ " [--approve|--request-changes|--comment] --body " +:+ dq +:+ "summary"
      +:+ dq;
    "";
    "REVIEW APPROACH:";
    "1. Start by using Bash to run: gh api repos/" +:+ interpolate owner
      +:+ "/" +:+ interpolate repo +:+ "/pulls/" +:+ interpolate PR_NUMBER
      +:+ "/files";
    "   This shows all changed files with their diffs";
    "2. For each changed file, use Read to understand the full context if needed";
    "3. Navigate to related files to understand broader context";
    "4. Identify issues:";
    "   - Logic errors and bugs";
    "   - Security vulnerabilities (SQL injection, XSS, credential leaks, etc.)";
    "   - Race conditions and concurrency issues";
    "   - Memory leaks and resource management issues";
    "   - Breaking API changes";
    "   - Missing error handling";
    "   - Poor code organization or unclear logic";
    "   - Performance issues";
    "   - Accessibility problems (for UI code)";
    "5. Post specific inline comments for issues found using gh CLI with JSON files";
    "6. Provide final review summary using gh pr review";
    "";
    "GUIDELINES:";
    "- Focus on meaningful issues that could cause real problems";
    "- Be constructive and specific in your feedback";
    "- Suggest concrete fixes when possible";
    "- Don't nitpick style unless it affects readability";
    "- Read more files if something is unclear";
    "- Consider the full impact of changes, not just local effects";
    "";
    "FINAL REVIEW:";
    "When done reviewing, use gh pr review to post your summary with:";
    "- --approve: No significant issues found";
    "- --comment: Minor issues that should be addressed but don't block merge";
    "- --request-changes: Serious issues that must be fixed before merge";
    "";
    "BEGIN: Start by examining what changed in this PR using gh CLI."
  ].

(** [s.replace(/"/g, '\\"')]: a backslash before every double quote. *)
Fixpoint escape_quotes (s : string) : string :=
  match s with
  | EmptyString => EmptyString
  | String c r =>
      if Nat.eqb (nat_of_ascii c) 34
      then backslash +:+ String c (escape_quotes r)
      else String c (escape_quotes r)
  end.

(** [error.message], [error.stdout], [error.stderr] of a caught error. *)
Definition error_message (error : exn) : result string :=
  match error with
  | ExecError message _ _ => Value message
  | _ => Unmodelled
  end.

Definition error_stdout (error : exn) : option string :=
  match error with ExecError _ out _ => out | _ => None end.

Definition error_stderr (error : exn) : option string :=
  match error with ExecError _ _ err => err | _ => None end.

(** The command that configures the API key, and its options. *)
Definition config_command (ANTHROPIC_API_KEY : option string) : string :=
  "cline config set api-key=" +:+ interpolate ANTHROPIC_API_KEY.

Definition config_options : exec_options :=
  {| encoding := "utf8"; stdio := "inherit";
     exec_env := None; exec_cwd := None |}.

(** The command that starts the task and follows it, and its options. *)
Definition task_command (REVIEW_PROMPT : string) : string :=
  "cline task new " +:+ dq +:+ escape_quotes REVIEW_PROMPT +:+ dq
  +:+ " --yolo --mode act & sleep 2 && cline task view --follow-complete --output-format plain".

Definition task_options (h : host) (process_env : gmap string string)
  : exec_options :=
  {| encoding := "utf8"; stdio := "pipe";
     exec_env := Some process_env; exec_cwd := Some (process_cwd h) |}.

(** The script, top to bottom. *)
Definition main (h : host) : M unit :=
  c ← startup;
  console_log (nl +:+ "=== Configuring Cline ===");;
  try_catch
    (execSync h (config_command (PrReviewAgent.ANTHROPIC_API_KEY c))
       config_options;;
     console_log "✓ API key configured")
    (fun error =>
       message ← eval (error_message error);
       console_error ("Failed to configure API key:" +:+ " " +:+ message);;
       process_exit 1);;
  let REVIEW_PROMPT :=
    REVIEW_PROMPT (PrReviewAgent.owner c) (PrReviewAgent.repo c)
      (PrReviewAgent.PR_NUMBER c) (PrReviewAgent.GITHUB_REPOSITORY c)
      (PrReviewAgent.HEAD_SHA c) in
  console_log (nl +:+ "=== Starting PR Review ===" +:+ nl);;
  try_catch
    (process_env ← current_env;
     output ← execSync h (task_command REVIEW_PROMPT)
                       (task_options h process_env);
     console_log output;;
     console_log (nl +:+ "✓ PR Review completed successfully"))
    (fun error =>
       console_error (nl +:+ "❌ PR Review failed");;
       when (negb (falsy (error_stdout error))) (
         console_log (nl +:+ "Output:");;
         console_log (interpolate (error_stdout error)));;
       when (negb (falsy (error_stderr error))) (
         console_error (nl +:+ "Errors:");;
         console_error (interpolate (error_stderr error)));;
       process_exit 1).

Definition run (h : host) (e : gmap string string) : completion unit * world :=
  main h {| process_env := e; effects := [] |}.

End ClineCliReview.

(* ===================================================================== *)
(** ** What a run is observed by                                          *)
(* ===================================================================== *)

Module Obs.
Import Js Host.

Definition fresh : world := {| process_env := ∅; effects := [] |}.

(** The world [w] after the effects [out]. *)
Definition add_effects (w : world) (out : list effect) : world :=
  {| process_env := process_env w; effects := effects w ++ out |}.

Definition is_log (e : effect) : bool :=
  match e with Log _ => true | _ => false end.

(** The sessions a run started: the arguments of its [query] calls. *)
Fixpoint queries (es : list effect) : list query_args :=
  match es with
  | [] => []
  | Query args :: rest => args :: queries rest
  | _ :: rest => queries rest
  end.

(** The writes of a run to [process.env]. *)
Fixpoint env_writes (es : list effect) : list (string * string) :=
  match es with
  | [] => []
  | SetEnv name value :: rest => (name, value) :: env_writes rest
  | _ :: rest => env_writes rest
  end.

(** The commands a run executed. *)
Fixpoint commands (es : list effect) : list string :=
  match es with
  | [] => []
  | Exec command _ :: rest => command :: commands rest
  | _ :: rest => commands rest
  end.

(** The lines a run wrote with [console.log]. *)
Fixpoint logged (es : list effect) : list string :=
  match es with
  | [] => []
  | Log text :: rest => text :: logged rest
  | _ :: rest => logged rest
  end.

(** [needle] occurs in [text]. *)
Definition mentions (needle text : string) : bool :=
  match String.index 0 needle text with Some _ => true | None => false end.

(** The five inputs the scripts require. *)
Definition required_inputs : list string :=
  ["ANTHROPIC_API_KEY"; "GITHUB_TOKEN"; "GITHUB_REPOSITORY"; "PR_NUMBER";
   "HEAD_SHA"].

(** An input is absent or empty. *)
Definition missing (e : gmap string string) (name : string) : Prop :=
  e !! name = None ∨ e !! name = Some "".

(** An input is set to a non-empty value. *)
Definition present (e : gmap string string) (name : string) : Prop :=
  ∃ v, e !! name = Some v ∧ v ≠ "".

(** The loop of [runAgent] over the stream [s], from a fresh world: how it
    ends and what it wrote. *)
Definition classify (s : stream) : completion unit * list effect :=
  let r := for_await s PrReviewAgent.on_message fresh in
  (r.1, effects r.2).
Arguments classify : simpl never.

Definition exits {A} (c : completion A) : bool :=
  match c with Exit _ => true | _ => false end.

(** A computation that touches the world through the console log only and
    does not exit: how it ends and what it logs do not depend on the
    world. *)
Definition logs_only {A} (m : M A) : Prop :=
  ∃ c out, exits c = false ∧ forallb is_log out = true
           ∧ ∀ w, m w = (c, add_effects w out).

(** [c] occurs in [s]. *)
Fixpoint contains_char (c : ascii) (s : string) : bool :=
  match s with
  | EmptyString => false
  | String d r => (Ascii.eqb d c || contains_char c r)%bool
  end.

(** The constants of the script when the five inputs are present. *)
Definition constants_for (key token repository pr sha : string) : PrReviewAgent.constants :=
  {| PrReviewAgent.ANTHROPIC_API_KEY := Some key;
     PrReviewAgent.GITHUB_TOKEN := Some token;
     PrReviewAgent.GITHUB_REPOSITORY := Some repository;
     PrReviewAgent.PR_NUMBER := Some pr;
     PrReviewAgent.HEAD_SHA := Some sha;
     PrReviewAgent.owner := split "/" repository !! 0%nat;
     PrReviewAgent.repo := split "/" repository !! 1%nat |}.

(** The argument of the one [query] call when the five inputs are
    present. *)
Definition session_args (h : host) (e : gmap string string)
    (key token repository pr sha : string) : query_args :=
  let c := constants_for key token repository pr sha in
  PrReviewAgent.query_call_args h
    (PrReviewAgent.SYSTEM_PROMPT (PrReviewAgent.owner c) (PrReviewAgent.repo c)
       (PrReviewAgent.PR_NUMBER c) (PrReviewAgent.HEAD_SHA c)) c
    (<["GH_TOKEN" := token]> e).

(** The effects of the script before the [query] call. *)
Definition preamble (token repository pr : string) : list effect :=
  [SetEnv "GH_TOKEN" token;
   Log ("Starting AI-powered review for " +:+ repository +:+ "#" +:+ pr)].

Definition starting_line : effect :=
  Log (nl +:+ "=== Starting PR Review ===" +:+ nl).

Definition completed_line : effect :=
  Log (nl +:+ "✓ PR Review Agent completed successfully").

End Obs.

(* ===================================================================== *)
(** ** Concrete messages and runs                                         *)
(* ===================================================================== *)

Module Scenario.
Import Js Host Obs.

(** The double nearest to 0.12. *)
Definition cost_0_12 : Q := 8646911284551352 # 72057594037927936.

Definition system_init : jsval :=
  JObj [("type", JStr "system"); ("subtype", JStr "init");
        ("model", JStr "m1");
        ("tools", JArr [JStr "Bash"; JStr "Read"]);
        ("mcp_servers", JArr [])].

Definition assistant_checking : jsval :=
  JObj [("type", JStr "assistant");
        ("message",
         JObj [("content",
                JArr [JObj [("type", JStr "text");
                            ("text", JStr "Checking diff")];
                      JObj [("type", JStr "tool_use");
                            ("name", JStr "Bash");
                            ("input", JObj [("cmd", JStr "gh api ...")])]])])].

Definition result_success : jsval :=
  JObj [("type", JStr "result"); ("subtype", JStr "success");
        ("duration_ms", JNum (4200 # 1)); ("num_turns", JNum (3 # 1));
        ("total_cost_usd", JNum cost_0_12);
        ("result", JStr "Approved, no issues")].

Definition result_max_turns : jsval :=
  JObj [("type", JStr "result"); ("subtype", JStr "error_max_turns");
        ("duration_ms", JNum (60000 # 1)); ("num_turns", JNum (25 # 1));
        ("total_cost_usd", JNum (1 # 2))].

Definition assistant_text (text : string) : jsval :=
  JObj [("type", JStr "assistant");
        ("message",
         JObj [("content", JArr [JObj [("type", JStr "text");
                                       ("text", JStr text)]])])].

(** An assistant message without its [message] property. *)
Definition malformed : jsval := JObj [("type", JStr "assistant")].

(** What the loop logs for the three messages of the success scenario. *)
Definition system_init_entry : list effect :=
  [Log "[System] Initialized";
   Log "  Model: m1";
   Log "  Working Directory: undefined";
   Log "  Tools: Bash, Read";
   Log "  MCP Servers: none"].

Definition assistant_checking_entry : list effect :=
  [Log (nl +:+ "[Assistant] Checking diff" +:+ nl);
   Log (nl +:+ "[Tool Use] Bash");
   Log ("{" +:+ nl +:+ "  " +:+ dq +:+ "cmd" +:+ dq +:+ ": "
        +:+ dq +:+ "gh api ..." +:+ dq +:+ nl +:+ "}")].

Definition result_success_entry : list effect :=
  [Log (nl +:+ "=== Review Completed ===");
   Log "Duration: 4200ms";
   Log "Turns: 3";
   Log "Cost: $0.1200";
   Log "Status: success";
   Log (nl +:+ "Result: Approved, no issues")].

Definition example_env : gmap string string :=
  list_to_map [("ANTHROPIC_API_KEY", "sk-test"); ("GITHUB_TOKEN", "ghp-test");
               ("GITHUB_REPOSITORY", "cline/cline"); ("PR_NUMBER", "42");
               ("HEAD_SHA", "abc123")].

(** A host whose runtime answers every [query] with the stream [s]. *)
Definition host_of_stream (s : stream) : host :=
  {| process_cwd := "/work";
     runtime := fun _ => inr s;
     shell := fun _ _ => inr "" |}.

End Scenario.

(* ===================================================================== *)
(** ** Messages by their parts                                            *)
(* ===================================================================== *)

Module Messages.
Import Js Host Obs.

(** A text segment of an assistant message. *)
Definition text_segment (text : string) : jsval :=
  JObj [("type", JStr "text"); ("text", JStr text)].

(** An entry of [mcp_servers]. *)
Definition server (name : string) : jsval := JObj [("name", JStr name)].

(** The line the loop logs for a text segment. *)
Definition text_line (text : string) : effect :=
  Log (nl +:+ "[Assistant] " +:+ text +:+ nl).

(** The number of occurrences of [c] in [s]. *)
Fixpoint count_char (c : ascii) (s : string) : nat :=
  match s with
  | EmptyString => 0%nat
  | String d r => ((if Ascii.eqb d c then 1 else 0) + count_char c r)%nat
  end.

(** A host with the shell [sh] and a runtime that gives an empty
    stream. *)
Definition host_of_shell (sh : string -> exec_options -> exn + string) : host :=
  {| process_cwd := "/work";
     runtime := fun _ => inr done;
     shell := sh |}.

(** A host whose runtime fails to start with [error]. *)
Definition host_failing_to_start (error : exn) : host :=
  {| process_cwd := "/work";
     runtime := fun _ => inl error;
     shell := fun _ _ => inr "" |}.

End Messages.

(* ===================================================================== *)
(** ** Properties                                                         *)
(* ===================================================================== *)

Import Js Host PrReviewAgent Obs Scenario Messages.
Local Open Scope js_scope.

(** *** The message handlers only log *)

Lemma add_effects_nil (w : world) : add_effects w [] = w.
Proof. destruct w; unfold add_effects; simpl; by rewrite app_nil_r. Qed.

Lemma add_effects_app (w : world) (out1 out2 : list effect) :
  add_effects (add_effects w out1) out2 = add_effects w (out1 ++ out2).
Proof. unfold add_effects; simpl; by rewrite app_assoc. Qed.

Lemma forallb_is_log_app (out1 out2 : list effect) :
  forallb is_log out1 = true -> forallb is_log out2 = true ->
  forallb is_log (out1 ++ out2) = true.
Proof. intros H1 H2. rewrite forallb_app, H1, H2. reflexivity. Qed.

Lemma logs_only_ret {A} (a : A) : logs_only (ret a).
Proof.
  exists (Normal a), []. split_and!; [reflexivity..|].
  intros w. unfold ret. by rewrite add_effects_nil.
Qed.

Lemma logs_only_eval {A} (r : result A) : logs_only (eval r).
Proof.
  exists (eval r fresh).1, []. split_and!; [by destruct r|reflexivity|].
  intros w. unfold eval. by rewrite add_effects_nil.
Qed.

Lemma logs_only_console_log (text : string) : logs_only (console_log text).
Proof. exists (Normal tt), [Log text]. split_and!; [reflexivity..|]. by intros w. Qed.

Lemma logs_only_bind {A B} (m : M A) (k : A -> M B) :
  logs_only m -> (forall a, logs_only (k a)) -> logs_only (bind m k).
Proof.
  intros (c & out & Hc & Hout & Hm) Hk.
  destruct c as [a|e|code|]; [| |discriminate Hc|].
  - destruct (Hk a) as (c2 & out2 & Hc2 & Hout2 & Hk2).
    exists c2, (out ++ out2). split_and!; [done|by apply forallb_is_log_app|].
    intros w. unfold bind. by rewrite Hm, Hk2, add_effects_app.
  - exists (Throw e), out. split_and!; [done..|]. intros w. unfold bind. by rewrite Hm.
  - exists Unknown, out. split_and!; [done..|]. intros w. unfold bind. by rewrite Hm.
Qed.

Lemma logs_only_when (c : bool) (body : M unit) :
  logs_only body -> logs_only (when c body).
Proof. intros H. destruct c; [exact H | apply logs_only_ret]. Qed.

Lemma logs_only_for_of {A} (xs : list A) (body : A -> M unit) :
  (forall x, logs_only (body x)) -> logs_only (for_of xs body).
Proof.
  intros Hbody. induction xs as [|x rest IH]; simpl.
  - apply logs_only_ret.
  - apply logs_only_bind; [apply Hbody | intros _; exact IH].
Qed.

(** One step of the structural argument: a bind, a primitive, or a case
    split on the condition of a conditional. *)
Ltac logs_only_step :=
  first
    [ apply logs_only_ret
    | apply logs_only_eval
    | apply logs_only_console_log
    | apply logs_only_when
    | apply logs_only_bind; [|intros ?]
    | match goal with
      | |- logs_only (if ?b then _ else _) => destruct b
      end ].

Lemma logs_only_on_content (content : jsval) : logs_only (on_content content).
Proof. unfold on_content. repeat logs_only_step. Qed.

Lemma logs_only_on_result (message : jsval) : logs_only (on_result message).
Proof. unfold on_result. repeat logs_only_step. Qed.

Lemma logs_only_on_system_init (message : jsval) :
  logs_only (on_system_init message).
Proof. unfold on_system_init. repeat logs_only_step. Qed.

Lemma logs_only_on_message (message : jsval) : logs_only (on_message message).
Proof.
  unfold on_message.
  repeat first
    [ apply logs_only_for_of; intros ?; apply logs_only_on_content
    | apply logs_only_on_result
    | apply logs_only_on_system_init
    | logs_only_step ].
Qed.

Lemma logs_only_for_await (s : stream) : logs_only (for_await s on_message).
Proof.
  induction s as [|message rest IH|error]; simpl.
  - apply logs_only_ret.
  - apply logs_only_bind; [apply logs_only_on_message | intros _; exact IH].
  - apply logs_only_eval.
Qed.

Lemma only_logs_observed (out : list effect) :
  forallb is_log out = true ->
  queries out = [] ∧ env_writes out = [] ∧ commands out = [].
Proof.
  induction out as [|[] rest IH]; simpl; try discriminate; auto.
Qed.

Lemma queries_app (es1 es2 : list effect) :
  queries (es1 ++ es2) = queries es1 ++ queries es2.
Proof.
  induction es1 as [|[] rest IH]; simpl; auto. by rewrite IH.
Qed.

Lemma env_writes_app (es1 es2 : list effect) :
  env_writes (es1 ++ es2) = env_writes es1 ++ env_writes es2.
Proof.
  induction es1 as [|[] rest IH]; simpl; auto. by rewrite IH.
Qed.

Lemma logged_app (es1 es2 : list effect) :
  logged (es1 ++ es2) = logged es1 ++ logged es2.
Proof.
  induction es1 as [|[] rest IH]; simpl; auto. by rewrite IH.
Qed.

(** *** The loop, message by message *)

(** The loop over a stream, from any world, is [classify] of the stream:
    same end, same lines appended. *)
Lemma for_await_classify (s : stream) (w : world) :
  for_await s on_message w = ((classify s).1, add_effects w (classify s).2).
Proof.
  destruct (logs_only_for_await s) as (c & out & _ & _ & H).
  unfold classify. rewrite (H fresh), (H w). reflexivity.
Qed.

Lemma classify_logs (s : stream) : forallb is_log (classify s).2 = true.
Proof.
  destruct (logs_only_for_await s) as (c & out & _ & Hout & H).
  unfold classify. rewrite (H fresh). exact Hout.
Qed.

Lemma classify_no_exit (s : stream) : exits (classify s).1 = false.
Proof.
  destruct (logs_only_for_await s) as (c & out & Hc & _ & H).
  unfold classify. rewrite (H fresh). exact Hc.
Qed.

Lemma on_message_fresh (message : jsval) (w : world) :
  on_message message w =
    ((on_message message fresh).1,
     add_effects w (effects (on_message message fresh).2)).
Proof.
  destruct (logs_only_on_message message) as (c & out & _ & _ & H).
  rewrite (H fresh), (H w). reflexivity.
Qed.

Lemma classify_done : classify done = (Normal tt, []).
Proof. reflexivity. Qed.

Lemma classify_yield (message : jsval) (s : stream) :
  classify (yield message s) =
    match (on_message message fresh).1 with
    | Normal _ =>
        ((classify s).1, effects (on_message message fresh).2 ++ (classify s).2)
    | other => (other, effects (on_message message fresh).2)
    end.
Proof.
  unfold classify at 1. cbn [for_await]. unfold bind.
  destruct (on_message message fresh) as [c w] eqn:Hm. cbn [fst snd].
  destruct c as [[]|error|code|]; try reflexivity.
  rewrite for_await_classify. cbn [fst snd].
  unfold add_effects. reflexivity.
Qed.

Lemma yield_all_app (ms1 ms2 : list jsval) (tail : stream) :
  yield_all (ms1 ++ ms2) tail = yield_all ms1 (yield_all ms2 tail).
Proof. induction ms1 as [|m rest IH]; simpl; [done|by rewrite IH]. Qed.

(** A stream that starts with the messages [ms]: when the loop gets
    through them it goes on with the tail, else it stops where it would
    have stopped without the tail. *)
Lemma classify_yield_all (ms : list jsval) (tail : stream) :
  classify (yield_all ms tail) =
    match (classify (yield_all ms done)).1 with
    | Normal _ =>
        ((classify tail).1, (classify (yield_all ms done)).2 ++ (classify tail).2)
    | _ => classify (yield_all ms done)
    end.
Proof.
  induction ms as [|m rest IH]; cbn [yield_all].
  - rewrite classify_done. cbn [fst snd app]. by destruct (classify tail).
  - rewrite !classify_yield.
    destruct ((on_message m fresh).1) as [[]|error|code|]; try reflexivity.
    rewrite IH.
    destruct (classify (yield_all rest done)) as [[[]|error|code|] out];
      cbn [fst snd]; try reflexivity.
    by rewrite app_assoc.
Qed.

(** *** A result message *)

Lemma on_message_result (message : jsval) (w : world) :
  get message "type" = Value (JStr "result") ->
  on_message message w = on_result message w.
Proof.
  intros Htype. unfold on_message, bind at 1, eval at 1. rewrite Htype.
  reflexivity.
Qed.

(** The log of a result message with the max-turns subtype, when it is
    processed without error: the five summary lines, the max-turns note,
    then the count of permission denials if there are any. *)
Lemma on_result_max_turns (message : jsval) :
  get message "subtype" = Value (JStr "error_max_turns") ->
  (on_result message fresh).1 = Normal tt ->
  ∃ duration turns cost denials,
    effects (on_result message fresh).2 =
      [Log (nl +:+ "=== Review Completed ===");
       Log ("Duration: " +:+ duration +:+ "ms");
       Log ("Turns: " +:+ turns);
       Log ("Cost: $" +:+ cost);
       Log "Status: error_max_turns";
       Log (nl +:+ "⚠️ Review reached maximum turns limit")] ++ denials
    ∧ (denials = []
       ∨ ∃ n, denials = [Log (nl +:+ "⚠️ Permission denials: " +:+ n)]).
Proof.
  intros Hsub.
  unfold on_result, bind, eval, console_log, perform, when, ret, interpolation.
  rewrite Hsub. cbn [fresh effects process_env app fst snd].
  destruct (get message "duration_ms") as [d| |]; try discriminate.
  destruct (ToString d) as [duration| |]; try discriminate.
  destruct (get message "num_turns") as [t| |]; try discriminate.
  destruct (ToString t) as [turns| |]; try discriminate.
  destruct (get message "total_cost_usd") as [c| |]; try discriminate.
  destruct (call_toFixed _ c 4) as [cost| |]; try discriminate.
  cbn.
  destruct (get message "permission_denials") as [p| |]; try discriminate.
  destruct (truthy p); cbn.
  - destruct (get p "length") as [len| |]; try discriminate.
    destruct (greater_than_zero len) as [[]| |]; try discriminate; cbn.
    + destruct (ToString len) as [n| |]; try discriminate.
      cbn. intros _. exists duration, turns, cost. eexists. split; [reflexivity|].
      right. by exists n.
    + intros _. exists duration, turns, cost, []. split; [reflexivity|]. by left.
  - intros _. exists duration, turns, cost, []. split; [reflexivity|]. by left.
Qed.

(** *** The top of the scripts *)

Lemma falsy_present (e : gmap string string) (name : string) :
  present e name -> falsy (e !! name) = false.
Proof.
  intros (v & -> & Hv). simpl. by apply String.eqb_neq.
Qed.

Lemma falsy_missing (e : gmap string string) (name : string) :
  missing e name -> falsy (e !! name) = true.
Proof. by intros [-> | ->]. Qed.

Lemma missing_or_present (e : gmap string string) (name : string) :
  missing e name ∨ present e name.
Proof.
  unfold missing, present. destruct (e !! name) as [v|]; [|by left; left].
  destruct (String.eqb_spec v "") as [-> | Hv]; [by left; right|].
  right. by exists v.
Qed.

Lemma missing_not_present (e : gmap string string) (name : string) :
  missing e name -> present e name -> False.
Proof.
  intros Hm Hp. apply falsy_missing in Hm. apply falsy_present in Hp.
  congruence.
Qed.

(** Either an input is missing and the run stops at the checks, or the
    five are present. *)
Lemma inputs_cases (e : gmap string string) :
  (∃ name, name ∈ required_inputs ∧ missing e name)
  ∨ (∃ key token repository pr sha,
       (e !! "ANTHROPIC_API_KEY" = Some key ∧ key ≠ "")
       ∧ (e !! "GITHUB_TOKEN" = Some token ∧ token ≠ "")
       ∧ (e !! "GITHUB_REPOSITORY" = Some repository ∧ repository ≠ "")
       ∧ (e !! "PR_NUMBER" = Some pr ∧ pr ≠ "")
       ∧ (e !! "HEAD_SHA" = Some sha ∧ sha ≠ "")).
Proof.
  destruct (missing_or_present e "ANTHROPIC_API_KEY") as [H|(key & Hk)];
    [left; eexists; split; [|exact H]; repeat constructor|].
  destruct (missing_or_present e "GITHUB_TOKEN") as [H|(token & Ht)];
    [left; eexists; split; [|exact H]; repeat constructor|].
  destruct (missing_or_present e "GITHUB_REPOSITORY") as [H|(repository & Hr)];
    [left; eexists; split; [|exact H]; repeat constructor|].
  destruct (missing_or_present e "PR_NUMBER") as [H|(pr & Hp)];
    [left; eexists; split; [|exact H]; repeat constructor|].
  destruct (missing_or_present e "HEAD_SHA") as [H|(sha & Hs)];
    [left; eexists; split; [|exact H]; repeat constructor|].
  right. by exists key, token, repository, pr, sha.
Qed.

Lemma present_all (e : gmap string string) :
  (∀ name, name ∈ required_inputs -> present e name) ->
  ∃ key token repository pr sha,
    (e !! "ANTHROPIC_API_KEY" = Some key ∧ key ≠ "")
    ∧ (e !! "GITHUB_TOKEN" = Some token ∧ token ≠ "")
    ∧ (e !! "GITHUB_REPOSITORY" = Some repository ∧ repository ≠ "")
    ∧ (e !! "PR_NUMBER" = Some pr ∧ pr ≠ "")
    ∧ (e !! "HEAD_SHA" = Some sha ∧ sha ≠ "").
Proof.
  intros Hall.
  destruct (inputs_cases e) as [(name & Hin & Hmiss)|H]; [|exact H].
  destruct (missing_not_present e name Hmiss (Hall name Hin)).
Qed.

(** With an input missing, the top of the script writes one error line and
    exits with code 1. *)
Lemma startup_missing (w : world) (name : string) :
  name ∈ required_inputs -> missing (process_env w) name ->
  ∃ text, startup w = (Exit 1, add_effects w [LogError text]).
Proof.
  intros Hin Hmiss. apply falsy_missing in Hmiss.
  unfold startup, bind, getenv, when, console_error, perform, process_exit,
    ret, add_effects.
  destruct (falsy (process_env w !! "ANTHROPIC_API_KEY")) eqn:Hk;
    [eexists; reflexivity|].
  destruct (falsy (process_env w !! "GITHUB_TOKEN")) eqn:Ht;
    [eexists; reflexivity|].
  destruct (falsy (process_env w !! "GITHUB_REPOSITORY")) eqn:Hr;
    [eexists; reflexivity|].
  destruct (falsy (process_env w !! "PR_NUMBER")) eqn:Hp;
    [eexists; reflexivity|].
  destruct (falsy (process_env w !! "HEAD_SHA")) eqn:Hs;
    [eexists; reflexivity|].
  exfalso. unfold required_inputs in Hin.
  repeat (apply elem_of_cons in Hin as [-> | Hin]; [congruence|]).
  by apply elem_of_nil in Hin.
Qed.

(** With the five inputs present, the top of the script splits the
    repository identifier, writes [GH_TOKEN] and logs its first line. *)
Lemma startup_present (w : world) (key token repository pr sha : string) :
  process_env w !! "ANTHROPIC_API_KEY" = Some key -> key ≠ "" ->
  process_env w !! "GITHUB_TOKEN" = Some token -> token ≠ "" ->
  process_env w !! "GITHUB_REPOSITORY" = Some repository -> repository ≠ "" ->
  process_env w !! "PR_NUMBER" = Some pr -> pr ≠ "" ->
  process_env w !! "HEAD_SHA" = Some sha -> sha ≠ "" ->
  startup w =
    (Normal {| ANTHROPIC_API_KEY := Some key;
               GITHUB_TOKEN := Some token;
               GITHUB_REPOSITORY := Some repository;
               PR_NUMBER := Some pr;
               HEAD_SHA := Some sha;
               owner := split "/" repository !! 0%nat;
               repo := split "/" repository !! 1%nat |},
     {| process_env := <["GH_TOKEN" := token]> (process_env w);
        effects := effects w ++
          [SetEnv "GH_TOKEN" token;
           Log ("Starting AI-powered review for " +:+ repository +:+ "#" +:+ pr)]
     |}).
Proof.
  intros Hk Hk' Ht Ht' Hr Hr' Hp Hp' Hs Hs'.
  apply String.eqb_neq in Hk', Ht', Hr', Hp', Hs'.
  unfold startup, bind, getenv, when, setenv, console_log, perform, eval, ret.
  rewrite Hk, Ht, Hr, Hp, Hs. simpl. rewrite Hk', Ht', Hr', Hp', Hs'. simpl.
  by rewrite <- app_assoc.
Qed.

Lemma split_without_separator (sep : ascii) (s : string) :
  contains_char sep s = false -> split sep s = [s].
Proof.
  induction s as [|c r IH]; simpl; [done|].
  intros H. apply orb_false_iff in H as [Hc Hr].
  rewrite Hc, (IH Hr). reflexivity.
Qed.

(** *** The session and the whole script *)

(** What [runAgent] does, by the answer of the runtime and the end of the
    loop over the stream. *)
Lemma runAgent_spec (h : host) (sp : string) (c : constants) (w : world) :
  runAgent h sp c w =
    let args := query_call_args h sp c (process_env w) in
    match runtime h args with
    | inl error =>
        (Exit 1, add_effects w [Query args; LogErrorWith "Fatal error:" error])
    | inr s =>
        let out := [Query args; Log (nl +:+ "=== Starting PR Review ===" +:+ nl)]
                   ++ (classify s).2 in
        match (classify s).1 with
        | Normal _ =>
            (Normal tt,
             add_effects w
               (out ++ [Log (nl +:+ "✓ PR Review Agent completed successfully")]))
        | Throw error =>
            (Exit 1, add_effects w (out ++ [LogErrorWith "Fatal error:" error]))
        | Exit code => (Exit code, add_effects w out)
        | Unknown => (Unknown, add_effects w out)
        end
    end.
Proof.
  pose proof for_await_classify as Hloop. revert Hloop.
  generalize classify as loop. intros loop Hloop.
  unfold runAgent, try_catch, bind at 1 2, current_env, query. simpl.
  destruct (runtime h _) as [error|s].
  - unfold bind, console_error_with, perform, process_exit, add_effects. simpl.
    by rewrite <- app_assoc.
  - unfold bind at 1. unfold console_log at 1, perform at 1.
    unfold bind at 1. rewrite Hloop.
    destruct (loop s) as [[[]|error|code|] out]; simpl;
      unfold console_log, console_error_with, bind, perform, process_exit,
        add_effects; simpl;
      repeat rewrite <- app_assoc; reflexivity.
Qed.

Lemma run_missing (h : host) (e : gmap string string) (name : string) :
  name ∈ required_inputs -> missing e name ->
  ∃ text, run h e = (Exit 1, {| process_env := e; effects := [LogError text] |}).
Proof.
  intros Hin Hmiss.
  destruct (startup_missing {| process_env := e; effects := [] |} name Hin Hmiss)
    as (text & Hstart).
  exists text. unfold run, main, bind. by rewrite Hstart.
Qed.

(** A run with the five inputs present, by the answer of the runtime and
    the end of the loop over the stream. *)
Lemma run_present (h : host) (e : gmap string string)
    (key token repository pr sha : string) :
  e !! "ANTHROPIC_API_KEY" = Some key -> key ≠ "" ->
  e !! "GITHUB_TOKEN" = Some token -> token ≠ "" ->
  e !! "GITHUB_REPOSITORY" = Some repository -> repository ≠ "" ->
  e !! "PR_NUMBER" = Some pr -> pr ≠ "" ->
  e !! "HEAD_SHA" = Some sha -> sha ≠ "" ->
  let args := session_args h e key token repository pr sha in
  let before := preamble token repository pr ++ [Query args] in
  run h e =
    match runtime h args with
    | inl error =>
        (Exit 1,
         {| process_env := <["GH_TOKEN" := token]> e;
            effects := before ++ [LogErrorWith "Fatal error:" error] |})
    | inr s =>
        let out := before ++ [starting_line] ++ (classify s).2 in
        match (classify s).1 with
        | Normal _ =>
            (Normal tt,
             {| process_env := <["GH_TOKEN" := token]> e;
                effects := out ++ [completed_line] |})
        | Throw error =>
            (Exit 1,
             {| process_env := <["GH_TOKEN" := token]> e;
                effects := out ++ [LogErrorWith "Fatal error:" error] |})
        | Exit code =>
            (Exit code,
             {| process_env := <["GH_TOKEN" := token]> e; effects := out |})
        | Unknown =>
            (Unknown,
             {| process_env := <["GH_TOKEN" := token]> e; effects := out |})
        end
    end.
Proof.
  intros Hk Hk' Ht Ht' Hr Hr' Hp Hp' Hs Hs' args before.
  unfold run, main, bind at 1.
  rewrite (startup_present _ key token repository pr sha) by assumption.
  rewrite runAgent_spec. cbv zeta.
  change (query_call_args h _ _ _) with args.
  unfold add_effects, before, starting_line, completed_line, preamble.
  destruct (runtime h args) as [error|s]; [reflexivity|].
  generalize (classify s). intros [[[]|error|code|] out]; cbn [fst snd];
    cbn [process_env effects app]; repeat rewrite <- app_assoc; reflexivity.
Qed.

(** The effects of a run with the five inputs present: the preamble, the
    one [query] call, then log lines and at most one report of a caught
    error. *)
Lemma run_present_shape (h : host) (e : gmap string string)
    (key token repository pr sha : string) :
  e !! "ANTHROPIC_API_KEY" = Some key -> key ≠ "" ->
  e !! "GITHUB_TOKEN" = Some token -> token ≠ "" ->
  e !! "GITHUB_REPOSITORY" = Some repository -> repository ≠ "" ->
  e !! "PR_NUMBER" = Some pr -> pr ≠ "" ->
  e !! "HEAD_SHA" = Some sha -> sha ≠ "" ->
  ∃ after,
    effects (run h e).2 =
      preamble token repository pr
      ++ [Query (session_args h e key token repository pr sha)] ++ after
    ∧ queries after = [] ∧ env_writes after = []
    ∧ process_env (run h e).2 = <["GH_TOKEN" := token]> e
    ∧ ((run h e).1 = Normal tt ∨ (run h e).1 = Exit 1 ∨ (run h e).1 = Unknown).
Proof.
  intros Hk Hk' Ht Ht' Hr Hr' Hp Hp' Hs Hs'.
  rewrite (run_present h e key token repository pr sha) by assumption.
  cbv zeta.
  destruct (runtime h _) as [error|s].
  - exists [LogErrorWith "Fatal error:" error]. cbn [fst snd effects process_env].
    rewrite <- app_assoc. auto 10.
  - pose proof (classify_logs s) as Hlogs.
    pose proof (classify_no_exit s) as Hexit.
    apply only_logs_observed in Hlogs as (Hq & Hw & _).
    revert Hq Hw Hexit.
    generalize (classify s). intros [[[]|error|code|] out]; cbn [fst snd];
      intros Hq Hw Hexit; try discriminate Hexit.
    + exists ([starting_line] ++ out ++ [completed_line]).
      cbn [fst snd effects process_env]. repeat rewrite <- app_assoc.
      rewrite !queries_app, !env_writes_app, Hq, Hw. auto 10.
    + exists ([starting_line] ++ out ++ [LogErrorWith "Fatal error:" error]).
      cbn [fst snd effects process_env]. repeat rewrite <- app_assoc.
      rewrite !queries_app, !env_writes_app, Hq, Hw. auto 10.
    + exists ([starting_line] ++ out).
      cbn [fst snd effects process_env]. repeat rewrite <- app_assoc.
      rewrite !queries_app, !env_writes_app, Hq, Hw. auto 10.
Qed.

(** *** The second script *)

(** With an input missing, the second script stops at the same checks: one
    error line, no command run, exit code 1. *)
Lemma cli_run_missing (h : host) (e : gmap string string) (name : string) :
  name ∈ required_inputs -> missing e name ->
  ∃ text, ClineCliReview.run h e
          = (Exit 1, {| process_env := e; effects := [LogError text] |}).
Proof.
  intros Hin Hmiss.
  destruct (startup_missing {| process_env := e; effects := [] |} name Hin Hmiss)
    as (text & Hstart).
  exists text.
  unfold ClineCliReview.run, ClineCliReview.main, ClineCliReview.startup,
    bind at 1.
  by rewrite Hstart.
Qed.

(** With the five inputs present, the second script runs the command that
    configures the key, and the command that starts the task when the
    first succeeds. *)
Lemma cli_run_present (h : host) (e : gmap string string)
    (key token repository pr sha : string) :
  e !! "ANTHROPIC_API_KEY" = Some key -> key ≠ "" ->
  e !! "GITHUB_TOKEN" = Some token -> token ≠ "" ->
  e !! "GITHUB_REPOSITORY" = Some repository -> repository ≠ "" ->
  e !! "PR_NUMBER" = Some pr -> pr ≠ "" ->
  e !! "HEAD_SHA" = Some sha -> sha ≠ "" ->
  let c := constants_for key token repository pr sha in
  let config := ClineCliReview.config_command (Some key) in
  let task :=
    ClineCliReview.task_command
      (ClineCliReview.REVIEW_PROMPT (owner c) (repo c) (Some pr)
         (Some repository) (Some sha)) in
  commands (effects (ClineCliReview.run h e).2) =
    match shell h config ClineCliReview.config_options with
    | inl _ => [config]
    | inr _ => [config; task]
    end
  ∧ env_writes (effects (ClineCliReview.run h e).2) = [("GH_TOKEN", token)].
Proof.
  intros Hk Hk' Ht Ht' Hr Hr' Hp Hp' Hs Hs' c config task.
  remember (ClineCliReview.run h e) as r eqn:Hrun.
  unfold ClineCliReview.run, ClineCliReview.main, ClineCliReview.startup,
    bind at 1 in Hrun.
  rewrite (startup_present _ key token repository pr sha) in Hrun
    by assumption.
  unfold bind, try_catch, execSync, console_log, console_error, perform,
    current_env, process_exit, when, eval, ret in Hrun.
  cbn [process_env effects ANTHROPIC_API_KEY] in Hrun.
  fold config in Hrun.
  destruct (shell h config ClineCliReview.config_options) as [error|out].
  - destruct (ClineCliReview.error_message error); by subst r.
  - cbn [process_env effects] in Hrun.
    destruct (shell h _ (ClineCliReview.task_options _ _)) as [error|out'].
    + destruct (falsy (ClineCliReview.error_stdout error)),
               (falsy (ClineCliReview.error_stderr error)); by subst r.
    + by subst r.
Qed.

(** *** Lines of a prompt *)

Lemma append_assoc (a b c : string) : (a +:+ b) +:+ c = a +:+ b +:+ c.
Proof.
  induction a as [|x a IH]; [reflexivity|].
  change (String x ((a +:+ b) +:+ c) = String x (a +:+ b +:+ c)).
  by rewrite IH.
Qed.

(** The text of a list of lines around one of them. *)
Lemma lines_around (l1 : list string) (x : string) (l2 : list string) :
  ∃ before after, lines (l1 ++ x :: l2) = before +:+ x +:+ after.
Proof.
  induction l1 as [|y l1 IH]; cbn [app].
  - exists "". destruct l2 as [|z l2].
    + exists "". unfold lines. cbn [String.concat].
      change ("" +:+ x +:+ "") with (x +:+ "").
      clear. induction x as [|a x IH]; [reflexivity|].
      change (String a x = String a (x +:+ "")). by rewrite <- IH.
    + exists (nl +:+ lines (z :: l2)). reflexivity.
  - destruct IH as (before & after & IH).
    exists (y +:+ nl +:+ before), after.
    unfold lines in *. cbn [String.concat].
    destruct (l1 ++ x :: l2) eqn:E; [by destruct l1|].
    rewrite IH. by rewrite !append_assoc.
Qed.

(** *** The inputs of the examples *)

(** The example environment has the five inputs. *)
Lemma example_env_all_present (name : string) :
  name ∈ required_inputs -> present example_env name.
Proof.
  intros Hin. unfold required_inputs in Hin.
  repeat (apply elem_of_cons in Hin as [-> | Hin];
          [eexists; split; [reflexivity|discriminate]|]).
  by apply elem_of_nil in Hin.
Qed.

(** *** Claims *)

(** C1, as the code has it.  When the stream ends with a result message
    of subtype [error_max_turns], and its messages are processed without
    error, the run logs the status line and the note that the maximum
    turns limit was reached, then the line that the agent completed, and
    ends normally: the exit code is 0. *)
Theorem max_turns_logged_exit_zero (h : host) (e : gmap string string)
    (key token repository pr sha : string)
    (events : list jsval) (message : jsval) :
  e !! "ANTHROPIC_API_KEY" = Some key -> key ≠ "" ->
  e !! "GITHUB_TOKEN" = Some token -> token ≠ "" ->
  e !! "GITHUB_REPOSITORY" = Some repository -> repository ≠ "" ->
  e !! "PR_NUMBER" = Some pr -> pr ≠ "" ->
  e !! "HEAD_SHA" = Some sha -> sha ≠ "" ->
  runtime h (session_args h e key token repository pr sha) =
    inr (yield_all (events ++ [message]) done) ->
  (classify (yield_all events done)).1 = Normal tt ->
  get message "type" = Value (JStr "result") ->
  get message "subtype" = Value (JStr "error_max_turns") ->
  (on_message message fresh).1 = Normal tt ->
  (run h e).1 = Normal tt
  ∧ exit_code (run h e).1 = Some 0
  ∧ ∃ before denials,
      effects (run h e).2 =
        before
        ++ [Log "Status: error_max_turns";
            Log (nl +:+ "⚠️ Review reached maximum turns limit")]
        ++ denials ++ [completed_line]
      ∧ (denials = []
         ∨ ∃ n, denials = [Log (nl +:+ "⚠️ Permission denials: " +:+ n)]).
Proof.
  intros Hk Hk' Ht Ht' Hr Hr' Hp Hp' Hs Hs' Hruntime Hevents Htype Hsub Hlast.
  pose proof (run_present h e key token repository pr sha
                Hk Hk' Ht Ht' Hr Hr' Hp Hp' Hs Hs') as Hrun.
  cbv zeta in Hrun.
  rewrite Hruntime, yield_all_app, classify_yield_all, Hevents in Hrun.
  cbn [yield_all fst snd] in Hrun.
  rewrite classify_yield, Hlast, classify_done in Hrun. cbn [fst snd] in Hrun.
  rewrite Hrun. cbn [fst snd effects exit_code].
  split_and!; [reflexivity..|].
  rewrite (on_message_result message fresh Htype) in Hlast |- *.
  destruct (on_result_max_turns message Hsub Hlast)
    as (duration & turns & cost & denials & -> & Hdenials).
  exists (preamble token repository pr
          ++ [Query (session_args h e key token repository pr sha); starting_line]
          ++ (classify (yield_all events done)).2
          ++ [Log (nl +:+ "=== Review Completed ===");
              Log ("Duration: " +:+ duration +:+ "ms");
              Log ("Turns: " +:+ turns);
              Log ("Cost: $" +:+ cost)]), denials.
  split; [|exact Hdenials].
  rewrite app_nil_r. repeat rewrite <- app_assoc. reflexivity.
Qed.

(** The C1 theorem at a stream of an initial system message and a
    max-turns result. *)
Lemma max_turns_logged_exit_zero_witness :
  let s := yield_all ([system_init] ++ [result_max_turns]) done in
  let h := host_of_stream s in
  (run h example_env).1 = Normal tt
  ∧ exit_code (run h example_env).1 = Some 0
  ∧ ∃ before denials,
      effects (run h example_env).2 =
        before
        ++ [Log "Status: error_max_turns";
            Log (nl +:+ "⚠️ Review reached maximum turns limit")]
        ++ denials ++ [completed_line]
      ∧ (denials = []
         ∨ ∃ n, denials = [Log (nl +:+ "⚠️ Permission denials: " +:+ n)]).
Proof.
  intros s h.
  apply (max_turns_logged_exit_zero h example_env "sk-test" "ghp-test"
           "cline/cline" "42" "abc123" [system_init] result_max_turns);
    (reflexivity || discriminate).
Defined.

(** C1 fails as stated: a stream that ends with the max-turns result
    leaves the exit code 0, and no line of the log has the words
    [turn limit]; the last line is the one of a completed run. *)
Lemma max_turns_exit_code_is_zero :
  let r := run (host_of_stream (yield result_max_turns done)) example_env in
  exit_code r.1 = Some 0
  ∧ existsb (mentions "turn limit") (logged (effects r.2)) = false
  ∧ last (effects r.2) = Some completed_line.
Proof. vm_compute. split_and!; reflexivity. Qed.

(** C2, as the code has it.  When the stream closes and its messages are
    processed without error, whether or not one of them is a result, the
    run logs what the messages give, then the line that the agent
    completed, adds no note of its own and ends normally: the exit code
    is 0. *)
Theorem closed_stream_exit_zero (h : host) (e : gmap string string)
    (key token repository pr sha : string) (events : list jsval) :
  e !! "ANTHROPIC_API_KEY" = Some key -> key ≠ "" ->
  e !! "GITHUB_TOKEN" = Some token -> token ≠ "" ->
  e !! "GITHUB_REPOSITORY" = Some repository -> repository ≠ "" ->
  e !! "PR_NUMBER" = Some pr -> pr ≠ "" ->
  e !! "HEAD_SHA" = Some sha -> sha ≠ "" ->
  runtime h (session_args h e key token repository pr sha) =
    inr (yield_all events done) ->
  (classify (yield_all events done)).1 = Normal tt ->
  (run h e).1 = Normal tt
  ∧ exit_code (run h e).1 = Some 0
  ∧ effects (run h e).2 =
      preamble token repository pr
      ++ [Query (session_args h e key token repository pr sha); starting_line]
      ++ (classify (yield_all events done)).2
      ++ [completed_line].
Proof.
  intros Hk Hk' Ht Ht' Hr Hr' Hp Hp' Hs Hs' Hruntime Hevents.
  pose proof (run_present h e key token repository pr sha
                Hk Hk' Ht Ht' Hr Hr' Hp Hp' Hs Hs') as Hrun.
  cbv zeta in Hrun. rewrite Hruntime, Hevents in Hrun.
  rewrite Hrun. cbn [fst snd effects exit_code].
  split_and!; [reflexivity..|].
  by repeat rewrite <- app_assoc.
Qed.

(** The C2 theorem at a stream of a system message and two assistant
    messages. *)
Lemma closed_stream_exit_zero_witness :
  let events := [system_init; assistant_text "Reading the diff";
                 assistant_text "Looking at the tests"] in
  let h := host_of_stream (yield_all events done) in
  (run h example_env).1 = Normal tt
  ∧ exit_code (run h example_env).1 = Some 0
  ∧ effects (run h example_env).2 =
      preamble "ghp-test" "cline/cline" "42"
      ++ [Query (session_args h example_env "sk-test" "ghp-test" "cline/cline"
                   "42" "abc123");
          starting_line]
      ++ (classify (yield_all events done)).2
      ++ [completed_line].
Proof.
  intros events h.
  apply (closed_stream_exit_zero h example_env "sk-test" "ghp-test"
           "cline/cline" "42" "abc123" events);
    (reflexivity || discriminate).
Defined.

(** C2 fails as stated: a stream of a system message and two assistant
    messages that closes without a result leaves the exit code 0, and no
    line of the log says that the stream ended without a terminal
    result. *)
Lemma no_result_exit_code_is_zero :
  let s := yield_all [system_init; assistant_text "Reading the diff";
                      assistant_text "Looking at the tests"] done in
  let r := run (host_of_stream s) example_env in
  exit_code r.1 = Some 0
  ∧ existsb (mentions "stream ended without terminal result")
      (logged (effects r.2)) = false
  ∧ last (effects r.2) = Some completed_line.
Proof. vm_compute. split_and!; reflexivity. Qed.

(** C3, as the code has it.  When processing a message of the stream
    throws, the loop stops there: the error is written once to standard
    error after what was logged so far, no later message of the stream is
    read, and the run exits with code 1. *)
Theorem failing_message_is_fatal (h : host) (e : gmap string string)
    (key token repository pr sha : string)
    (events : list jsval) (bad : jsval) (rest : stream) (error : exn) :
  e !! "ANTHROPIC_API_KEY" = Some key -> key ≠ "" ->
  e !! "GITHUB_TOKEN" = Some token -> token ≠ "" ->
  e !! "GITHUB_REPOSITORY" = Some repository -> repository ≠ "" ->
  e !! "PR_NUMBER" = Some pr -> pr ≠ "" ->
  e !! "HEAD_SHA" = Some sha -> sha ≠ "" ->
  runtime h (session_args h e key token repository pr sha) =
    inr (yield_all events (yield bad rest)) ->
  (classify (yield_all events done)).1 = Normal tt ->
  (on_message bad fresh).1 = Throw error ->
  (run h e).1 = Exit 1
  ∧ exit_code (run h e).1 = Some 1
  ∧ effects (run h e).2 =
      preamble token repository pr
      ++ [Query (session_args h e key token repository pr sha); starting_line]
      ++ (classify (yield_all events done)).2
      ++ effects (on_message bad fresh).2
      ++ [LogErrorWith "Fatal error:" error].
Proof.
  intros Hk Hk' Ht Ht' Hr Hr' Hp Hp' Hs Hs' Hruntime Hevents Hbad.
  pose proof (run_present h e key token repository pr sha
                Hk Hk' Ht Ht' Hr Hr' Hp Hp' Hs Hs') as Hrun.
  cbv zeta in Hrun.
  rewrite Hruntime, classify_yield_all, Hevents in Hrun.
  rewrite classify_yield, Hbad in Hrun. cbn [fst snd] in Hrun.
  rewrite Hrun. cbn [fst snd effects exit_code].
  split_and!; [reflexivity..|].
  by repeat rewrite <- app_assoc.
Qed.

(** The C3 theorem at a stream with a malformed assistant message between
    a system message and a result. *)
Lemma failing_message_is_fatal_witness :
  let rest := yield result_success done in
  let h := host_of_stream (yield_all [system_init] (yield malformed rest)) in
  (run h example_env).1 = Exit 1
  ∧ exit_code (run h example_env).1 = Some 1
  ∧ effects (run h example_env).2 =
      preamble "ghp-test" "cline/cline" "42"
      ++ [Query (session_args h example_env "sk-test" "ghp-test" "cline/cline"
                   "42" "abc123");
          starting_line]
      ++ (classify (yield_all [system_init] done)).2
      ++ effects (on_message malformed fresh).2
      ++ [LogErrorWith "Fatal error:" (TypeError_read JUndefined "content")].
Proof.
  intros rest h.
  apply (failing_message_is_fatal h example_env "sk-test" "ghp-test"
           "cline/cline" "42" "abc123" [system_init] malformed rest);
    (reflexivity || discriminate).
Defined.

(** C3 fails as stated: with a malformed message before the result, the
    run stops at the malformed message with exit code 1, and the result
    after it is never logged. *)
Lemma malformed_message_aborts :
  let s := yield_all [malformed; result_success] done in
  let r := run (host_of_stream s) example_env in
  r.1 = Exit 1
  ∧ last (effects r.2)
    = Some (LogErrorWith "Fatal error:" (TypeError_read JUndefined "content"))
  ∧ existsb (mentions "Review Completed") (logged (effects r.2)) = false
  ∧ logged (effects r.2)
    = ["Starting AI-powered review for cline/cline#42";
       nl +:+ "=== Starting PR Review ===" +:+ nl].
Proof. vm_compute. split_and!; reflexivity. Qed.

(** C4. With one of the five required inputs absent or empty, the script
    writes a configuration error, starts no session and exits with code 1;
    with the five present and non-empty, it passes the checks and starts
    the session.  The second script has the same checks: with an input
    missing it runs no command and exits with code 1, with the five
    present it runs its configuration command, and its task command when
    that one succeeds. *)
Theorem validation_gates_session (h : host) (e : gmap string string) :
  ((∃ name, name ∈ required_inputs ∧ missing e name) ->
     (exit_code (run h e).1 = Some 1
      ∧ queries (effects (run h e).2) = []
      ∧ ∃ text, effects (run h e).2 = [LogError text])
     ∧ (exit_code (ClineCliReview.run h e).1 = Some 1
        ∧ commands (effects (ClineCliReview.run h e).2) = []
        ∧ ∃ text, effects (ClineCliReview.run h e).2 = [LogError text]))
  ∧ ((∀ name, name ∈ required_inputs -> present e name) ->
     (∃ args, queries (effects (run h e).2) = [args])
     ∧ (∃ config task,
          commands (effects (ClineCliReview.run h e).2) =
            match shell h config ClineCliReview.config_options with
            | inl _ => [config]
            | inr _ => [config; task]
            end)).
Proof.
  split.
  - intros (name & Hin & Hmiss).
    destruct (run_missing h e name Hin Hmiss) as (text & ->).
    destruct (cli_run_missing h e name Hin Hmiss) as (text' & ->). simpl.
    split; (split_and!; [done..|]); by eexists.
  - intros Hall.
    destruct (present_all e Hall)
      as (key & token & repository & pr & sha
          & [Hk Hk'] & [Ht Ht'] & [Hr Hr'] & [Hp Hp'] & [Hs Hs']).
    split.
    + destruct (run_present_shape h e key token repository pr sha)
        as (after & -> & Hq & _); try assumption.
      eexists. rewrite !queries_app, Hq. reflexivity.
    + destruct (cli_run_present h e key token repository pr sha)
        as [Hcommands _]; try assumption.
      eexists _, _. exact Hcommands.
Qed.

(** The C4 theorem at an environment without [PR_NUMBER] and at one with
    the five inputs. *)
Lemma validation_gates_session_witness :
  let h := host_of_stream done in
  let without_pr := delete "PR_NUMBER" example_env in
  (exit_code (run h without_pr).1 = Some 1
   ∧ queries (effects (run h without_pr).2) = []
   ∧ ∃ text, effects (run h without_pr).2 = [LogError text])
  ∧ ∃ args, queries (effects (run h example_env).2) = [args].
Proof.
  intros h without_pr. split.
  - apply (proj1 (validation_gates_session h without_pr)).
    exists "PR_NUMBER". split; [repeat constructor|by left].
  - apply (proj2 (validation_gates_session h example_env)).
    exact example_env_all_present.
Defined.

(** C5. The loop over the same stream, run twice from two worlds whose
    log is empty, ends the same way and writes the same log; it writes
    log lines only and leaves the environment as it found it. *)
Theorem classifier_replay (s : stream) (w1 w2 : world) :
  effects w1 = [] -> effects w2 = [] ->
  (for_await s on_message w1).1 = (for_await s on_message w2).1
  ∧ effects (for_await s on_message w1).2 = effects (for_await s on_message w2).2
  ∧ forallb is_log (effects (for_await s on_message w1).2) = true
  ∧ process_env (for_await s on_message w1).2 = process_env w1.
Proof.
  intros H1 H2. rewrite !for_await_classify. cbn [fst snd].
  unfold add_effects. cbn [effects process_env]. rewrite H1, H2.
  split_and!; try reflexivity. apply classify_logs.
Qed.

(** The C5 theorem at the three messages of the success scenario, from
    two worlds with different environments. *)
Lemma classifier_replay_witness :
  let s := yield_all [system_init; assistant_checking; result_success] done in
  let w1 := fresh in
  let w2 := {| process_env := example_env; effects := [] |} in
  (effects w1 = [] ∧ effects w2 = [])
  ∧ (for_await s on_message w1).1 = (for_await s on_message w2).1
  ∧ effects (for_await s on_message w1).2 = effects (for_await s on_message w2).2
  ∧ forallb is_log (effects (for_await s on_message w1).2) = true
  ∧ process_env (for_await s on_message w1).2 = process_env w1.
Proof.
  intros s w1 w2. split; [by split|].
  apply (classifier_replay s w1 w2); reflexivity.
Defined.

(** C6. With the three messages of the scenario as the stream, the run
    takes the success path: the log holds the entries of the three
    messages in arrival order, the result entry gives the duration 4200ms,
    3 turns and the cost 0.1200 dollars, the run ends normally and the
    exit code is 0. *)
Theorem scenario_success (h : host) (e : gmap string string)
    (key token repository pr sha : string) :
  e !! "ANTHROPIC_API_KEY" = Some key -> key ≠ "" ->
  e !! "GITHUB_TOKEN" = Some token -> token ≠ "" ->
  e !! "GITHUB_REPOSITORY" = Some repository -> repository ≠ "" ->
  e !! "PR_NUMBER" = Some pr -> pr ≠ "" ->
  e !! "HEAD_SHA" = Some sha -> sha ≠ "" ->
  runtime h (session_args h e key token repository pr sha) =
    inr (yield_all [system_init; assistant_checking; result_success] done) ->
  classify (yield system_init done) = (Normal tt, system_init_entry)
  ∧ classify (yield assistant_checking done) = (Normal tt, assistant_checking_entry)
  ∧ classify (yield result_success done) = (Normal tt, result_success_entry)
  ∧ effects (run h e).2 =
      preamble token repository pr
      ++ [Query (session_args h e key token repository pr sha); starting_line]
      ++ system_init_entry ++ assistant_checking_entry ++ result_success_entry
      ++ [completed_line]
  ∧ (run h e).1 = Normal tt
  ∧ exit_code (run h e).1 = Some 0.
Proof.
  intros Hk Hk' Ht Ht' Hr Hr' Hp Hp' Hs Hs' Hruntime.
  assert (Hloop :
    classify (yield_all [system_init; assistant_checking; result_success] done)
    = (Normal tt,
       system_init_entry ++ assistant_checking_entry ++ result_success_entry))
    by (vm_compute; reflexivity).
  pose proof (run_present h e key token repository pr sha
                Hk Hk' Ht Ht' Hr Hr' Hp Hp' Hs Hs') as Hrun.
  cbv zeta in Hrun. rewrite Hruntime, Hloop in Hrun. cbn [fst snd] in Hrun.
  rewrite Hrun. cbn [fst snd effects exit_code].
  split_and!; [vm_compute; reflexivity..| |reflexivity|reflexivity].
  by repeat rewrite <- app_assoc.
Qed.

(** The C6 theorem at the example environment and a runtime that gives
    the three messages. *)
Lemma scenario_success_witness :
  let s := yield_all [system_init; assistant_checking; result_success] done in
  let h := host_of_stream s in
  effects (run h example_env).2 =
    preamble "ghp-test" "cline/cline" "42"
    ++ [Query (session_args h example_env "sk-test" "ghp-test" "cline/cline"
                 "42" "abc123");
        starting_line]
    ++ system_init_entry ++ assistant_checking_entry ++ result_success_entry
    ++ [completed_line]
  ∧ (run h example_env).1 = Normal tt
  ∧ exit_code (run h example_env).1 = Some 0.
Proof.
  intros s h.
  apply (scenario_success h example_env "sk-test" "ghp-test" "cline/cline"
           "42" "abc123"); (reflexivity || discriminate).
Defined.

(** C7. The script writes [process.env] once at most: [GH_TOKEN], set to
    the platform token, before the [query] call, with one log line between
    the two.  The session is given that environment, and nothing writes
    it after the call.  A run that stops at the checks writes nothing but
    its error line. *)
Theorem env_written_before_session (h : host) (e : gmap string string) :
  (∃ text, effects (run h e).2 = [LogError text]
           ∧ process_env (run h e).2 = e)
  ∨ (∃ token line args after,
       e !! "GITHUB_TOKEN" = Some token
       ∧ effects (run h e).2 =
           [SetEnv "GH_TOKEN" token; Log line; Query args] ++ after
       ∧ env_writes after = []
       ∧ queries after = []
       ∧ env (options args) = <["GH_TOKEN" := token]> e
       ∧ process_env (run h e).2 = env (options args)).
Proof.
  destruct (inputs_cases e)
    as [(name & Hin & Hmiss)
       |(key & token & repository & pr & sha
         & [Hk Hk'] & [Ht Ht'] & [Hr Hr'] & [Hp Hp'] & [Hs Hs'])].
  - left. destruct (run_missing h e name Hin Hmiss) as (text & ->).
    by exists text.
  - right.
    destruct (run_present_shape h e key token repository pr sha)
      as (after & Heff & Hq & Hw & Henv & _); try assumption.
    exists token, ("Starting AI-powered review for " +:+ repository +:+ "#" +:+ pr),
      (session_args h e key token repository pr sha), after.
    split_and!; done.
Qed.

(** C8. A run starts at most one session, whatever the runtime answers
    and however the stream ends, and ends in one way: at the end of the
    script, or by exit with code 1. *)
Theorem at_most_one_session (h : host) (e : gmap string string) :
  (length (queries (effects (run h e).2)) <= 1)%nat
  ∧ ((run h e).1 = Normal tt ∨ (run h e).1 = Exit 1 ∨ (run h e).1 = Unknown).
Proof.
  destruct (inputs_cases e)
    as [(name & Hin & Hmiss)
       |(key & token & repository & pr & sha
         & [Hk Hk'] & [Ht Ht'] & [Hr Hr'] & [Hp Hp'] & [Hs Hs'])].
  - destruct (run_missing h e name Hin Hmiss) as (text & ->). simpl. auto.
  - destruct (run_present_shape h e key token repository pr sha)
      as (after & -> & Hq & _ & _ & Hend); try assumption.
    split; [|exact Hend].
    rewrite !queries_app, Hq. simpl. lia.
Qed.

(** C9. An assistant message whose content is the empty array is
    processed without effect: nothing is logged, the world is as it
    was. *)
Theorem empty_assistant_is_noop (message inner : jsval) (w : world) :
  get message "type" = Value (JStr "assistant") ->
  get message "message" = Value inner ->
  get inner "content" = Value (JArr []) ->
  on_message message w = (Normal tt, w).
Proof.
  intros Htype Hinner Hcontent.
  unfold on_message, bind, eval. rewrite Htype. cbn.
  rewrite Hinner, Hcontent. reflexivity.
Qed.

(** The C9 theorem at a world with an environment and a line already
    logged. *)
Lemma empty_assistant_is_noop_witness :
  let inner := JObj [("content", JArr [])] in
  let message := JObj [("type", JStr "assistant"); ("message", inner)] in
  let w := {| process_env := example_env; effects := [Log "before"] |} in
  (get message "type" = Value (JStr "assistant")
   ∧ get message "message" = Value inner
   ∧ get inner "content" = Value (JArr []))
  ∧ on_message message w = (Normal tt, w).
Proof.
  intros inner message w. split; [by split_and!|].
  apply (empty_assistant_is_noop message inner w); reflexivity.
Defined.

(** C10. With a non-empty repository identifier that has no slash, the
    checks pass, the repository-name component of the split is
    [undefined], and the session is started with a system prompt that
    interpolates it: the prompt has the command line with
    [repos/<identifier>/undefined/pulls/].  The second script gives its
    task command a prompt with the same [undefined] component. *)
Theorem repository_without_slash (h : host) (e : gmap string string)
    (key token repository pr sha : string) :
  e !! "ANTHROPIC_API_KEY" = Some key -> key ≠ "" ->
  e !! "GITHUB_TOKEN" = Some token -> token ≠ "" ->
  e !! "GITHUB_REPOSITORY" = Some repository -> repository ≠ "" ->
  e !! "PR_NUMBER" = Some pr -> pr ≠ "" ->
  e !! "HEAD_SHA" = Some sha -> sha ≠ "" ->
  contains_char "/" repository = false ->
  let c := constants_for key token repository pr sha in
  let args := session_args h e key token repository pr sha in
  owner c = Some repository
  ∧ repo c = None
  ∧ queries (effects (run h e).2) = [args]
  ∧ systemPrompt (options args)
    = SYSTEM_PROMPT (Some repository) None (Some pr) (Some sha)
  ∧ (∃ before after,
      systemPrompt (options args) =
        before
        +:+ ("- Get PR diff: gh api repos/" +:+ repository
             +:+ "/undefined/pulls/" +:+ pr +:+ "/files")
        +:+ after)
  ∧ commands (effects (ClineCliReview.run h e).2) =
      match shell h (ClineCliReview.config_command (Some key))
              ClineCliReview.config_options with
      | inl _ => [ClineCliReview.config_command (Some key)]
      | inr _ =>
          [ClineCliReview.config_command (Some key);
           ClineCliReview.task_command
             (ClineCliReview.REVIEW_PROMPT (Some repository) None (Some pr)
                (Some repository) (Some sha))]
      end.
Proof.
  intros Hk Hk' Ht Ht' Hr Hr' Hp Hp' Hs Hs' Hslash c args.
  assert (Hsplit : split "/" repository = [repository])
    by (by apply split_without_separator).
  assert (Hprompt : systemPrompt (options args)
                    = SYSTEM_PROMPT (Some repository) None (Some pr) (Some sha)).
  { unfold args, session_args, query_call_args, constants_for.
    cbn [systemPrompt options owner repo PR_NUMBER HEAD_SHA].
    rewrite Hsplit. reflexivity. }
  split_and!.
  - unfold c, constants_for. cbn [owner]. by rewrite Hsplit.
  - unfold c, constants_for. cbn [repo]. by rewrite Hsplit.
  - destruct (run_present_shape h e key token repository pr sha)
      as (after & -> & Hq & _); try assumption.
    rewrite !queries_app, Hq. reflexivity.
  - exact Hprompt.
  - rewrite Hprompt. unfold SYSTEM_PROMPT.
    match goal with
    | |- ∃ before after, lines ?l = _ =>
        change l with (firstn 24 l ++ nth 24 l "" :: skipn 25 l)
    end.
    apply lines_around.
  - pose proof (cli_run_present h e key token repository pr sha
                  Hk Hk' Ht Ht' Hr Hr' Hp Hp' Hs Hs') as Hcli.
    cbv zeta in Hcli. destruct Hcli as [Hcommands _].
    rewrite Hcommands. unfold constants_for. cbn [owner repo].
    rewrite Hsplit. reflexivity.
Qed.

(** The C10 theorem at the repository identifier [foo]. *)
Lemma repository_without_slash_witness :
  let h := host_of_stream done in
  let e := <["GITHUB_REPOSITORY" := "foo"]> example_env in
  let args := session_args h e "sk-test" "ghp-test" "foo" "42" "abc123" in
  contains_char "/" "foo" = false
  ∧ repo (constants_for "sk-test" "ghp-test" "foo" "42" "abc123") = None
  ∧ queries (effects (run h e).2) = [args]
  ∧ systemPrompt (options args)
    = SYSTEM_PROMPT (Some "foo") None (Some "42") (Some "abc123").
Proof.
  intros h e args.
  destruct (repository_without_slash h e "sk-test" "ghp-test" "foo" "42"
              "abc123")
    as (_ & Hrepo & Hqueries & Hprompt & _);
    try (reflexivity || discriminate).
  by split_and!.
Defined.

(** *** Further properties: the checks and the constants *)

(** X1. The checks report the first input that is missing, in the order
    of the script: the provider key, then the platform token, then the
    three GitHub values under one message.  The run ends there with exit
    code 1. *)
Theorem validation_reports_first_missing (h : host) (e : gmap string string) :
  (missing e "ANTHROPIC_API_KEY" ->
     run h e =
       (Exit 1,
        {| process_env := e;
           effects :=
             [LogError "Error: ANTHROPIC_API_KEY environment variable is required"]
        |}))
  ∧ (present e "ANTHROPIC_API_KEY" -> missing e "GITHUB_TOKEN" ->
     run h e =
       (Exit 1,
        {| process_env := e;
           effects :=
             [LogError "Error: GITHUB_TOKEN environment variable is required"]
        |}))
  ∧ (present e "ANTHROPIC_API_KEY" -> present e "GITHUB_TOKEN" ->
     missing e "GITHUB_REPOSITORY" ∨ missing e "PR_NUMBER"
     ∨ missing e "HEAD_SHA" ->
     run h e =
       (Exit 1,
        {| process_env := e;
           effects := [LogError "Error: GitHub environment variables missing"]
        |})).
Proof.
  unfold run, main, bind at 1, startup, bind, getenv, when, console_error,
    perform, process_exit, ret.
  cbn [process_env effects app].
  split_and!.
  - intros Hk. by rewrite (falsy_missing _ _ Hk).
  - intros Hk Ht. by rewrite (falsy_present _ _ Hk), (falsy_missing _ _ Ht).
  - intros Hk Ht Hrest.
    rewrite (falsy_present _ _ Hk), (falsy_present _ _ Ht).
    assert (Hany : (falsy (e !! "GITHUB_REPOSITORY") || falsy (e !! "PR_NUMBER")
                    || falsy (e !! "HEAD_SHA"))%bool = true).
    { destruct Hrest as [H|[H|H]]; rewrite (falsy_missing _ _ H);
        by repeat rewrite ?orb_true_r, ?orb_true_l. }
    by rewrite Hany.
Qed.

(** The X1 theorem at three environments, each without one input. *)
Lemma validation_reports_first_missing_witness :
  let h := host_of_stream done in
  run h (delete "ANTHROPIC_API_KEY" (delete "GITHUB_TOKEN" example_env)) =
    (Exit 1,
     {| process_env := delete "ANTHROPIC_API_KEY" (delete "GITHUB_TOKEN" example_env);
        effects :=
          [LogError "Error: ANTHROPIC_API_KEY environment variable is required"]
     |})
  ∧ run h (<["GITHUB_TOKEN" := ""]> example_env) =
    (Exit 1,
     {| process_env := <["GITHUB_TOKEN" := ""]> example_env;
        effects :=
          [LogError "Error: GITHUB_TOKEN environment variable is required"]
     |})
  ∧ run h (delete "HEAD_SHA" example_env) =
    (Exit 1,
     {| process_env := delete "HEAD_SHA" example_env;
        effects := [LogError "Error: GitHub environment variables missing"]
     |}).
Proof.
  intros h. split_and!.
  - apply (proj1 (validation_reports_first_missing h _)). by left.
  - apply (proj1 (proj2 (validation_reports_first_missing h _)));
      [eexists; split; [reflexivity|discriminate]|by right].
  - apply (proj2 (proj2 (validation_reports_first_missing h _)));
      [eexists; split; [reflexivity|discriminate]..|].
    right; right. by left.
Defined.

(** The split of a string at its first separator. *)
Lemma split_at_first (sep : ascii) (a b : string) :
  contains_char sep a = false ->
  split sep (a +:+ String sep b) = a :: split sep b.
Proof.
  induction a as [|c a IH]; intros Ha.
  - change ("" +:+ String sep b) with (String sep b). simpl.
    by rewrite Ascii.eqb_refl.
  - simpl in Ha. apply orb_false_iff in Ha as [Hc Ha].
    change (String c a +:+ String sep b) with (String c (a +:+ String sep b)).
    simpl. rewrite Hc, (IH Ha). reflexivity.
Qed.

(** X2. With a repository identifier [owner/name], or one with further
    components after another slash, the constants are the first two
    components: the session is started with the system prompt of that
    owner and that name, and what follows a second slash is dropped. *)
Theorem repository_with_slash (h : host) (e : gmap string string)
    (key token pr sha o r rest : string) :
  e !! "ANTHROPIC_API_KEY" = Some key -> key ≠ "" ->
  e !! "GITHUB_TOKEN" = Some token -> token ≠ "" ->
  e !! "GITHUB_REPOSITORY" = Some (o +:+ "/" +:+ r +:+ rest) ->
  e !! "PR_NUMBER" = Some pr -> pr ≠ "" ->
  e !! "HEAD_SHA" = Some sha -> sha ≠ "" ->
  contains_char "/" o = false ->
  contains_char "/" r = false ->
  rest = "" ∨ (∃ more, rest = "/" +:+ more) ->
  let c := constants_for key token (o +:+ "/" +:+ r +:+ rest) pr sha in
  owner c = Some o
  ∧ repo c = Some r
  ∧ ∃ args,
      queries (effects (run h e).2) = [args]
      ∧ systemPrompt (options args)
        = SYSTEM_PROMPT (Some o) (Some r) (Some pr) (Some sha).
Proof.
  intros Hk Hk' Ht Ht' Hr Hp Hp' Hs Hs' Ho Hname Hrest c.
  assert (Hr' : o +:+ "/" +:+ r +:+ rest ≠ "") by (by destruct o).
  assert (Hsplit : ∃ more, split "/" (o +:+ "/" +:+ r +:+ rest) = o :: r :: more).
  { change ("/" +:+ r +:+ rest) with (String "/" (r +:+ rest)).
    rewrite (split_at_first _ _ _ Ho).
    destruct Hrest as [-> | (more & ->)].
    - exists []. f_equal.
      replace (r +:+ "") with r; [by apply split_without_separator|].
      clear. induction r as [|a r IH]; [done|].
      change (String a r = String a (r +:+ "")). by rewrite <- IH.
    - change ("/" +:+ more) with (String "/" more).
      rewrite (split_at_first _ _ _ Hname). by eexists. }
  destruct Hsplit as (more & Hsplit).
  split_and!.
  - unfold c, constants_for. cbn [owner]. by rewrite Hsplit.
  - unfold c, constants_for. cbn [repo]. by rewrite Hsplit.
  - exists (session_args h e key token (o +:+ "/" +:+ r +:+ rest) pr sha).
    split.
    + destruct (run_present_shape h e key token (o +:+ "/" +:+ r +:+ rest) pr sha)
        as (after & -> & Hq & _); try assumption.
      rewrite !queries_app, Hq. reflexivity.
    + unfold session_args, query_call_args, constants_for.
      cbn [systemPrompt options owner repo PR_NUMBER HEAD_SHA].
      rewrite Hsplit. reflexivity.
Qed.

(** The X2 theorem at [cline/cline/extra]. *)
Lemma repository_with_slash_witness :
  let h := host_of_stream done in
  let e := <["GITHUB_REPOSITORY" := "cline/cline/extra"]> example_env in
  let c := constants_for "sk-test" "ghp-test" "cline/cline/extra" "42" "abc123" in
  owner c = Some "cline"
  ∧ repo c = Some "cline"
  ∧ ∃ args,
      queries (effects (run h e).2) = [args]
      ∧ systemPrompt (options args)
        = SYSTEM_PROMPT (Some "cline") (Some "cline") (Some "42") (Some "abc123").
Proof.
  intros h e c.
  apply (repository_with_slash h e "sk-test" "ghp-test" "42" "abc123"
           "cline" "cline" "/extra");
    try (reflexivity || discriminate).
  right. by exists "extra".
Defined.

(** X3. Every session a run starts is started with the same options,
    whatever the environment holds: permissions bypassed, at most 25
    turns, the fixed model, the working directory of the process, and an
    environment where [GH_TOKEN] is the platform token.  The prompt names
    the pull request, the repository and the commit as the environment
    gives them. *)
Theorem session_options_fixed (h : host) (e : gmap string string)
    (args : query_args) :
  args ∈ queries (effects (run h e).2) ->
  permissionMode (options args) = "bypassPermissions"
  ∧ maxTurns (options args) = 25
  ∧ model (options args) = "claude-3-5-sonnet-latest"
  ∧ cwd (options args) = process_cwd h
  ∧ env (options args) !! "GH_TOKEN" = e !! "GITHUB_TOKEN"
  ∧ prompt args =
      "Review pull request #" +:+ interpolate (e !! "PR_NUMBER")
      +:+ " for repository " +:+ interpolate (e !! "GITHUB_REPOSITORY")
      +:+ ". The PR is at commit " +:+ interpolate (e !! "HEAD_SHA")
      +:+ ". Start by examining what changed using the gh CLI commands available to you.".
Proof.
  destruct (inputs_cases e)
    as [(name & Hin & Hmiss)
       |(key & token & repository & pr & sha
         & [Hk Hk'] & [Ht Ht'] & [Hr Hr'] & [Hp Hp'] & [Hs Hs'])].
  - destruct (run_missing h e name Hin Hmiss) as (text & ->). simpl.
    intros Hargs. by apply elem_of_nil in Hargs.
  - destruct (run_present_shape h e key token repository pr sha)
      as (after & -> & Hq & _); try assumption.
    rewrite !queries_app, Hq. cbn [preamble queries app].
    intros Hargs. apply list_elem_of_singleton in Hargs as ->.
    unfold session_args, query_call_args, constants_for.
    cbn [permissionMode maxTurns model cwd env options prompt
         PR_NUMBER GITHUB_REPOSITORY HEAD_SHA].
    rewrite Ht, Hp, Hr, Hs, lookup_insert_eq. by split_and!.
Qed.

(** The X3 theorem at the example environment. *)
Lemma session_options_fixed_witness :
  let h := host_of_stream done in
  let args := session_args h example_env "sk-test" "ghp-test" "cline/cline"
                "42" "abc123" in
  permissionMode (options args) = "bypassPermissions"
  ∧ maxTurns (options args) = 25
  ∧ model (options args) = "claude-3-5-sonnet-latest"
  ∧ cwd (options args) = process_cwd h
  ∧ env (options args) !! "GH_TOKEN" = example_env !! "GITHUB_TOKEN"
  ∧ prompt args =
      "Review pull request #" +:+ interpolate (example_env !! "PR_NUMBER")
      +:+ " for repository " +:+ interpolate (example_env !! "GITHUB_REPOSITORY")
      +:+ ". The PR is at commit " +:+ interpolate (example_env !! "HEAD_SHA")
      +:+ ". Start by examining what changed using the gh CLI commands available to you.".
Proof.
  intros h args.
  apply (session_options_fixed h example_env args).
  destruct (run_present_shape h example_env "sk-test" "ghp-test" "cline/cline"
              "42" "abc123") as (after & -> & Hq & _);
    try (reflexivity || discriminate).
  rewrite !queries_app, Hq. cbn [preamble queries app].
  by apply list_elem_of_singleton.
Defined.

(** *** Further properties: the session *)

(** X4. When the runtime fails to start the session, the error is
    written to standard error after the [query] call and the run exits
    with code 1: the line that the review starts is never logged. *)
Lemma start_failure_is_fatal (h : host) (e : gmap string string)
    (key token repository pr sha : string) (error : exn) :
  e !! "ANTHROPIC_API_KEY" = Some key -> key ≠ "" ->
  e !! "GITHUB_TOKEN" = Some token -> token ≠ "" ->
  e !! "GITHUB_REPOSITORY" = Some repository -> repository ≠ "" ->
  e !! "PR_NUMBER" = Some pr -> pr ≠ "" ->
  e !! "HEAD_SHA" = Some sha -> sha ≠ "" ->
  runtime h (session_args h e key token repository pr sha) = inl error ->
  run h e =
    (Exit 1,
     {| process_env := <["GH_TOKEN" := token]> e;
        effects :=
          preamble token repository pr
          ++ [Query (session_args h e key token repository pr sha);
              LogErrorWith "Fatal error:" error] |}).
Proof.
  intros Hk Hk' Ht Ht' Hr Hr' Hp Hp' Hs Hs' Hruntime.
  rewrite (run_present h e key token repository pr sha) by assumption.
  cbv zeta. rewrite Hruntime. by rewrite <- app_assoc.
Qed.

(** The X4 theorem at a runtime that fails to start. *)
Lemma start_failure_is_fatal_witness :
  let error := Rejected "spawn failed" in
  let h := host_failing_to_start error in
  run h example_env =
    (Exit 1,
     {| process_env := <["GH_TOKEN" := "ghp-test"]> example_env;
        effects :=
          preamble "ghp-test" "cline/cline" "42"
          ++ [Query (session_args h example_env "sk-test" "ghp-test"
                       "cline/cline" "42" "abc123");
              LogErrorWith "Fatal error:" error] |}).
Proof.
  intros error h.
  apply (start_failure_is_fatal h example_env "sk-test" "ghp-test"
           "cline/cline" "42" "abc123" error);
    (reflexivity || discriminate).
Defined.

(** X5. When the stream fails instead of closing, after messages
    processed without error, the error is written to standard error after
    what these messages logged, and the run exits with code 1. *)
Lemma rejected_stream_is_fatal (h : host) (e : gmap string string)
    (key token repository pr sha : string)
    (events : list jsval) (error : exn) :
  e !! "ANTHROPIC_API_KEY" = Some key -> key ≠ "" ->
  e !! "GITHUB_TOKEN" = Some token -> token ≠ "" ->
  e !! "GITHUB_REPOSITORY" = Some repository -> repository ≠ "" ->
  e !! "PR_NUMBER" = Some pr -> pr ≠ "" ->
  e !! "HEAD_SHA" = Some sha -> sha ≠ "" ->
  runtime h (session_args h e key token repository pr sha) =
    inr (yield_all events (reject error)) ->
  (classify (yield_all events done)).1 = Normal tt ->
  run h e =
    (Exit 1,
     {| process_env := <["GH_TOKEN" := token]> e;
        effects :=
          preamble token repository pr
          ++ [Query (session_args h e key token repository pr sha);
              starting_line]
          ++ (classify (yield_all events done)).2
          ++ [LogErrorWith "Fatal error:" error] |}).
Proof.
  intros Hk Hk' Ht Ht' Hr Hr' Hp Hp' Hs Hs' Hruntime Hevents.
  rewrite (run_present h e key token repository pr sha) by assumption.
  cbv zeta. rewrite Hruntime, classify_yield_all, Hevents.
  change (classify (reject error)) with (@Throw unit error, @nil effect).
  cbn [fst snd]. rewrite app_nil_r. by repeat rewrite <- app_assoc.
Qed.

(** The X5 theorem at a stream that fails after a system message. *)
Lemma rejected_stream_is_fatal_witness :
  let error := Rejected "connection lost" in
  let h := host_of_stream (yield_all [system_init] (reject error)) in
  run h example_env =
    (Exit 1,
     {| process_env := <["GH_TOKEN" := "ghp-test"]> example_env;
        effects :=
          preamble "ghp-test" "cline/cline" "42"
          ++ [Query (session_args h example_env "sk-test" "ghp-test"
                       "cline/cline" "42" "abc123");
              starting_line]
          ++ (classify (yield_all [system_init] done)).2
          ++ [LogErrorWith "Fatal error:" error] |}).
Proof.
  intros error h.
  apply (rejected_stream_is_fatal h example_env "sk-test" "ghp-test"
           "cline/cline" "42" "abc123" [system_init] error);
    (reflexivity || discriminate).
Defined.

(** X6. The loop does not stop at a result message or at any other: when
    a first run of messages is processed without error, the loop goes on
    with what follows, and the log is the log of the first run followed by
    the log of the rest. *)
Theorem log_of_concatenation (ms1 ms2 : list jsval) (tail : stream) :
  (classify (yield_all ms1 done)).1 = Normal tt ->
  classify (yield_all (ms1 ++ ms2) tail) =
    ((classify (yield_all ms2 tail)).1,
     (classify (yield_all ms1 done)).2 ++ (classify (yield_all ms2 tail)).2).
Proof.
  intros H1. rewrite yield_all_app, classify_yield_all, H1. reflexivity.
Qed.

(** The X6 theorem at a result followed by an assistant message. *)
Lemma log_of_concatenation_witness :
  classify (yield_all ([result_success] ++ [assistant_text "One more"]) done) =
    (Normal tt, result_success_entry ++ [text_line "One more"]).
Proof.
  rewrite (log_of_concatenation [result_success] [assistant_text "One more"] done);
    reflexivity.
Defined.

(** X7. A message that is neither an assistant message, nor a result, nor
    a system message of subtype [init] is passed over: nothing is logged,
    nothing is thrown. *)
Theorem other_message_is_ignored (message type : jsval) (w : world) :
  get message "type" = Value type ->
  strict_eq_string type "assistant" = false ->
  strict_eq_string type "result" = false ->
  (strict_eq_string type "system" = false
   ∨ ∃ subtype, get message "subtype" = Value subtype
                ∧ strict_eq_string subtype "init" = false) ->
  on_message message w = (Normal tt, w).
Proof.
  intros Htype Ha Hr Hs.
  unfold on_message, bind, eval, ret. rewrite Htype, Ha, Hr.
  destruct Hs as [Hs | (subtype & Hsub & Hinit)].
  - by rewrite Hs.
  - destruct (strict_eq_string type "system"); [|done].
    by rewrite Hsub, Hinit.
Qed.

(** The X7 theorem at a user message and at a system message of another
    subtype. *)
Lemma other_message_is_ignored_witness :
  let user := JObj [("type", JStr "user"); ("message", JNull)] in
  let status := JObj [("type", JStr "system"); ("subtype", JStr "status")] in
  on_message user fresh = (Normal tt, fresh)
  ∧ on_message status fresh = (Normal tt, fresh).
Proof.
  intros user status. split.
  - apply (other_message_is_ignored user (JStr "user")); try reflexivity.
    by left.
  - apply (other_message_is_ignored status (JStr "system")); try reflexivity.
    right. by exists (JStr "status").
Defined.

(** *** Further properties: the messages *)

Lemma bind_normal {A B} (m : M A) (k : A -> M B) (w w' : world) (a : A) :
  m w = (Normal a, w') -> bind m k w = k a w'.
Proof. intros H. unfold bind. by rewrite H. Qed.

Lemma for_of_text_segments (texts : list string) (w : world) :
  for_of (text_segment <$> texts) on_content w =
    (Normal tt, add_effects w (text_line <$> texts)).
Proof.
  revert w. induction texts as [|t rest IH]; intros w.
  - cbn [fmap list_fmap for_of]. unfold ret. by rewrite add_effects_nil.
  - change (text_segment <$> t :: rest)
      with (text_segment t :: (text_segment <$> rest)).
    cbn [for_of].
    rewrite (bind_normal _ _ w (add_effects w [text_line t]) tt)
      by reflexivity.
    rewrite IH, add_effects_app. reflexivity.
Qed.

(** X8. An assistant message whose segments are text segments logs one
    entry per segment, in the order of the segments, each with the text
    as it is between the marker and a line break. *)
Theorem assistant_texts_logged_in_order (message inner : jsval)
    (texts : list string) (w : world) :
  get message "type" = Value (JStr "assistant") ->
  get message "message" = Value inner ->
  get inner "content" = Value (JArr (text_segment <$> texts)) ->
  on_message message w = (Normal tt, add_effects w (text_line <$> texts)).
Proof.
  intros Htype Hinner Hcontent.
  unfold on_message, bind at 1 2 3 4, eval. rewrite Htype. cbn [strict_eq_string].
  change (String.eqb "assistant" "assistant") with true. cbv iota.
  rewrite Hinner, Hcontent. cbn [iterate].
  apply for_of_text_segments.
Qed.

(** The X8 theorem at a message of two text segments. *)
Lemma assistant_texts_logged_in_order_witness :
  let inner := JObj [("content", JArr (text_segment <$> ["one"; "two"]))] in
  let message := JObj [("type", JStr "assistant"); ("message", inner)] in
  on_message message fresh =
    (Normal tt, add_effects fresh [text_line "one"; text_line "two"]).
Proof.
  intros inner message.
  apply (assistant_texts_logged_in_order message inner ["one"; "two"] fresh);
    reflexivity.
Defined.

(** X9. A tool-use segment without an [input] is logged all the same: the
    name of the tool, then the word [undefined] in place of the JSON
    text. *)
Theorem tool_use_without_input (content : jsval) (name : string) (w : world) :
  get content "type" = Value (JStr "tool_use") ->
  get content "name" = Value (JStr name) ->
  get content "input" = Value JUndefined ->
  on_content content w =
    (Normal tt,
     add_effects w [Log (nl +:+ "[Tool Use] " +:+ name); Log "undefined"]).
Proof.
  intros Htype Hname Hinput.
  unfold on_content, bind, eval, console_log, perform, interpolation.
  rewrite Htype. cbn [strict_eq_string].
  change (String.eqb "tool_use" "text") with false.
  change (String.eqb "tool_use" "tool_use") with true. cbv iota.
  rewrite Hname, Hinput. cbn. unfold add_effects. cbn.
  by rewrite <- app_assoc.
Qed.

(** The X9 theorem at a segment with a type and a name only. *)
Lemma tool_use_without_input_witness :
  let content := JObj [("type", JStr "tool_use"); ("name", JStr "Bash")] in
  on_content content fresh =
    (Normal tt,
     add_effects fresh [Log (nl +:+ "[Tool Use] Bash"); Log "undefined"]).
Proof.
  intros content.
  apply (tool_use_without_input content "Bash" fresh); reflexivity.
Defined.

Lemma for_of_strings (parts : list string) (w : world) :
  for_of (JStr <$> parts) on_content w = (Normal tt, w).
Proof.
  induction parts as [|x rest IH]; [reflexivity|].
  change (JStr <$> x :: rest) with (JStr x :: (JStr <$> rest)).
  cbn [for_of]. rewrite (bind_normal _ _ w w tt) by reflexivity. exact IH.
Qed.

(** X10. An assistant message whose content is a string, not an array of
    segments, is passed over: the loop visits its characters, none of
    which is a segment, and nothing is logged or thrown. *)
Theorem string_content_is_ignored (message inner : jsval) (text : string)
    (w : world) :
  get message "type" = Value (JStr "assistant") ->
  get message "message" = Value inner ->
  get inner "content" = Value (JStr text) ->
  on_message message w = (Normal tt, w).
Proof.
  intros Htype Hinner Hcontent.
  unfold on_message, bind at 1 2 3 4, eval. rewrite Htype. cbn [strict_eq_string].
  change (String.eqb "assistant" "assistant") with true. cbv iota.
  rewrite Hinner, Hcontent. cbn [iterate].
  apply for_of_strings.
Qed.

(** The X10 theorem at a message whose content is a sentence. *)
Lemma string_content_is_ignored_witness :
  let inner := JObj [("content", JStr "Looks good ✓")] in
  let message := JObj [("type", JStr "assistant"); ("message", inner)] in
  on_message message fresh = (Normal tt, fresh).
Proof.
  intros inner message.
  apply (string_content_is_ignored message inner "Looks good ✓" fresh);
    reflexivity.
Defined.

(** X11. An assistant message whose content is absent, [null], a number,
    a boolean or an object cannot be looped over: the type error is
    thrown before anything is logged. *)
Theorem content_not_iterable (message inner content : jsval) (w : world) :
  get message "type" = Value (JStr "assistant") ->
  get message "message" = Value inner ->
  get inner "content" = Value content ->
  (∀ elems, content ≠ JArr elems) -> (∀ text, content ≠ JStr text) ->
  on_message message w =
    (Throw (TypeError_not_iterable "message.message.content"), w).
Proof.
  intros Htype Hinner Hcontent Harr Hstr.
  unfold on_message, bind at 1 2 3 4, eval. rewrite Htype. cbn [strict_eq_string].
  change (String.eqb "assistant" "assistant") with true. cbv iota.
  rewrite Hinner, Hcontent.
  destruct content as [| | | | text | elems |]; try reflexivity.
  - by destruct (Hstr text).
  - by destruct (Harr elems).
Qed.

(** The X11 theorem at a message whose inner message has no content. *)
Lemma content_not_iterable_witness :
  let inner := JObj [("role", JStr "assistant")] in
  let message := JObj [("type", JStr "assistant"); ("message", inner)] in
  on_message message fresh =
    (Throw (TypeError_not_iterable "message.message.content"), fresh).
Proof.
  intros inner message.
  apply (content_not_iterable message inner JUndefined fresh);
    (reflexivity || discriminate).
Defined.

(** The log of a result message that is processed without error: the
    five summary lines, the note its subtype gives, the line its
    permission denials give. *)
Lemma on_result_shape (message sub pd : jsval) :
  get message "subtype" = Value sub ->
  get message "permission_denials" = Value pd ->
  (on_result message fresh).1 = Normal tt ->
  ∃ duration turns cost status note denials,
    effects (on_result message fresh).2 =
      [Log (nl +:+ "=== Review Completed ===");
       Log ("Duration: " +:+ duration +:+ "ms");
       Log ("Turns: " +:+ turns);
       Log ("Cost: $" +:+ cost);
       Log ("Status: " +:+ status)] ++ note ++ denials
    ∧ ToString sub = Value status
    ∧ (if strict_eq_string sub "success"
       then ∃ r, note = [Log (nl +:+ "Result: " +:+ r)]
       else if strict_eq_string sub "error_max_turns"
       then note = [Log (nl +:+ "⚠️ Review reached maximum turns limit")]
       else if strict_eq_string sub "error_during_execution"
       then note = [Log (nl +:+ "❌ Error occurred during review execution")]
       else note = [])
    ∧ (if truthy pd
       then ∃ len, get pd "length" = Value len
            ∧ ((greater_than_zero len = Value true
                ∧ ∃ n, ToString len = Value n
                       ∧ denials = [Log (nl +:+ "⚠️ Permission denials: " +:+ n)])
               ∨ (greater_than_zero len = Value false ∧ denials = []))
       else denials = []).
Proof.
  intros Hsub Hpd.
  unfold on_result, bind, eval, console_log, perform, when, ret, interpolation.
  rewrite Hsub, Hpd. cbn [fresh effects process_env app fst snd].
  destruct (get message "duration_ms") as [d| |]; try discriminate.
  destruct (ToString d) as [duration| |]; try discriminate.
  destruct (get message "num_turns") as [t| |]; try discriminate.
  destruct (ToString t) as [turns| |]; try discriminate.
  destruct (get message "total_cost_usd") as [c| |]; try discriminate.
  destruct (call_toFixed _ c 4) as [cost| |]; try discriminate.
  destruct (ToString sub) as [status| |]; try discriminate.
  cbn [fst snd effects process_env app].
  destruct (strict_eq_string sub "success") eqn:Hs;
    [|destruct (strict_eq_string sub "error_max_turns") eqn:Hm;
      [|destruct (strict_eq_string sub "error_during_execution") eqn:He]].
  1: destruct (get message "result") as [r| |]; try discriminate.
  1: destruct (ToString r) as [result| |]; try discriminate.
  all: cbn [fst snd effects process_env app].
  all: destruct (truthy pd);
    [ destruct (get pd "length") as [len| |]; try discriminate;
      destruct (greater_than_zero len) as [[]| |] eqn:Hgt; try discriminate;
      [ destruct (ToString len) as [n| |] eqn:Hn; try discriminate |]
    | ];
    cbn [fst snd effects process_env app]; intros _.
  all: exists duration, turns, cost, status.
  all: lazymatch goal with
       | Hn : ToString _ = Value _
         |- ∃ note denials, _ :: _ :: _ :: _ :: _ :: ?rest = _ ∧ _ =>
           lazymatch rest with
           | [?x; ?y] => exists [x], [y]
           | [?y] => exists [], [y]
           end
       | |- ∃ note denials, _ :: _ :: _ :: _ :: _ :: ?rest = _ ∧ _ =>
           exists rest, []
       end.
  all: split_and!; [reflexivity|reflexivity|first [reflexivity|by eexists]|].
  all: first
    [ reflexivity
    | exists len; split; [reflexivity|];
      first [ left; split; [exact Hgt|]; eexists; split; [exact Hn|reflexivity]
            | right; by split ] ].
Qed.

Lemma get_of_object (v x : jsval) (p q : string) :
  get v p = Value x -> ∃ y, get v q = Value y.
Proof. destruct v; simpl; try discriminate; by eexists. Qed.


(** X12. A result message that is processed without error logs a status
    line with its subtype and, after it, the note of that subtype: the
    result text for [success], the turns-limit warning for
    [error_max_turns], the execution-error note for
    [error_during_execution], and no note at all for any other
    subtype. *)
Theorem result_note_by_subtype (message : jsval) (sub : string) :
  get message "type" = Value (JStr "result") ->
  get message "subtype" = Value (JStr sub) ->
  (on_message message fresh).1 = Normal tt ->
  ∃ summary note denials,
    effects (on_message message fresh).2 =
      summary ++ [Log ("Status: " +:+ sub)] ++ note ++ denials
    ∧ length summary = 4%nat
    ∧ (length denials <= 1)%nat
    ∧ (sub = "success" -> ∃ r, note = [Log (nl +:+ "Result: " +:+ r)])
    ∧ (sub = "error_max_turns" ->
       note = [Log (nl +:+ "⚠️ Review reached maximum turns limit")])
    ∧ (sub = "error_during_execution" ->
       note = [Log (nl +:+ "❌ Error occurred during review execution")])
    ∧ (sub ≠ "success" -> sub ≠ "error_max_turns" ->
       sub ≠ "error_during_execution" -> note = []).
Proof.
  intros Htype Hsub. rewrite (on_message_result message fresh Htype).
  destruct (get_of_object message _ "type" "permission_denials" Htype)
    as (pd & Hpd).
  intros Hnormal.
  destruct (on_result_shape message (JStr sub) pd Hsub Hpd Hnormal)
    as (duration & turns & cost & status & note & denials
        & -> & Hstatus & Hnote & Hdenials).
  injection Hstatus as <-.
  exists [Log (nl +:+ "=== Review Completed ===");
          Log ("Duration: " +:+ duration +:+ "ms");
          Log ("Turns: " +:+ turns);
          Log ("Cost: $" +:+ cost)], note, denials.
  split_and!; [reflexivity|reflexivity|..].
  - destruct (truthy pd); cbv iota in Hdenials; [|subst denials; simpl; lia].
    destruct Hdenials as (len & _ & [(_ & n & _ & ->)|(_ & ->)]); simpl; lia.
  - intros ->. exact Hnote.
  - intros ->. exact Hnote.
  - intros ->. exact Hnote.
  - intros H1 H2 H3. cbn [strict_eq_string] in Hnote.
    apply String.eqb_neq in H1, H2, H3. by rewrite H1, H2, H3 in Hnote.
Qed.

(** The X12 theorem at a result whose subtype the script does not
    know. *)
Lemma result_note_by_subtype_witness :
  let message :=
    JObj [("type", JStr "result"); ("subtype", JStr "error_max_budget_usd");
          ("duration_ms", JNum (10 # 1)); ("num_turns", JNum (1 # 1));
          ("total_cost_usd", JNum (5 # 1))] in
  ∃ summary note denials,
    effects (on_message message fresh).2 =
      summary ++ [Log "Status: error_max_budget_usd"] ++ note ++ denials
    ∧ note = [].
Proof.
  intros message.
  destruct (result_note_by_subtype message "error_max_budget_usd")
    as (summary & note & denials & Heff & _ & _ & _ & _ & _ & Hnote);
    try reflexivity.
  exists summary, note, denials. split; [exact Heff|].
  apply Hnote; discriminate.
Defined.





Lemma traverse_cons {A B} (f : A -> result B) (x : A) (rest : list A) :
  traverse f (x :: rest) =
    match f x with
    | Value y => result_map (cons y) (traverse f rest)
    | Raise e => Raise e
    | Unmodelled => Unmodelled
    end.
Proof. reflexivity. Qed.

Lemma join_strings (sep : string) (items : list string) :
  Array_join sep (JStr <$> items) = Value (String.concat sep items).
Proof.
  unfold Array_join.
  assert (H : traverse (join_element ToString) (JStr <$> items) = Value items).
  { induction items as [|x rest IH]; [reflexivity|].
    change (JStr <$> x :: rest) with (JStr x :: (JStr <$> rest)).
    rewrite traverse_cons, IH. reflexivity. }
  by rewrite H.
Qed.

Lemma map_server_names (names : list string) :
  traverse (fun s => get s "name") (server <$> names) = Value (JStr <$> names).
Proof.
  induction names as [|x rest IH]; [reflexivity|].
  change (server <$> x :: rest) with (server x :: (server <$> rest)).
  rewrite traverse_cons, IH. reflexivity.
Qed.

(** X15. The system message that opens a session is logged in five
    lines: the marker, the model, the working directory, the tool names
    joined by a comma and a space, and the names of the MCP servers
    joined the same way, or the word [none] when that text is empty
    (no server, or servers with empty names only). *)
Theorem system_init_logged (message : jsval) (model_name directory : string)
    (tool_names server_names : list string) (w : world) :
  get message "type" = Value (JStr "system") ->
  get message "subtype" = Value (JStr "init") ->
  get message "model" = Value (JStr model_name) ->
  get message "cwd" = Value (JStr directory) ->
  get message "tools" = Value (JArr (JStr <$> tool_names)) ->
  get message "mcp_servers" = Value (JArr (server <$> server_names)) ->
  on_message message w =
    (Normal tt,
     add_effects w
       [Log "[System] Initialized";
        Log ("  Model: " +:+ model_name);
        Log ("  Working Directory: " +:+ directory);
        Log ("  Tools: " +:+ String.concat ", " tool_names);
        Log ("  MCP Servers: "
             +:+ (if String.eqb (String.concat ", " server_names) ""
                  then "none" else String.concat ", " server_names))]).
Proof.
  intros Htype Hsub Hmodel Hcwd Htools Hservers.
  unfold on_message, bind at 1 2, eval at 1 2. rewrite Htype, Hsub.
  cbn [strict_eq_string].
  change (String.eqb "system" "assistant") with false.
  change (String.eqb "system" "result") with false.
  change (String.eqb "system" "system") with true.
  change (String.eqb "init" "init") with true. cbn [andb]. cbv iota.
  unfold on_system_init, bind, eval, console_log, perform, interpolation.
  rewrite Hmodel, Hcwd, Htools, Hservers.
  cbn [ToString call_join call_map].
  rewrite (join_strings ", " tool_names), map_server_names,
    (join_strings ", " server_names).
  change (strict_eq_string (JStr "init") "init") with true. cbv beta iota.
  unfold add_effects. cbn [process_env effects].
  by repeat rewrite <- app_assoc.
Qed.

(** The X15 theorem at a message with two tools and no server. *)
Lemma system_init_logged_witness :
  let message :=
    JObj [("type", JStr "system"); ("subtype", JStr "init");
          ("model", JStr "m1"); ("cwd", JStr "/repo");
          ("tools", JArr (JStr <$> ["Bash"; "Read"]));
          ("mcp_servers", JArr (server <$> []))] in
  on_message message fresh =
    (Normal tt,
     add_effects fresh
       [Log "[System] Initialized";
        Log "  Model: m1";
        Log "  Working Directory: /repo";
        Log "  Tools: Bash, Read";
        Log "  MCP Servers: none"]).
Proof.
  intros message.
  apply (system_init_logged message "m1" "/repo" ["Bash"; "Read"] [] fresh);
    reflexivity.
Defined.

(** *** Further properties: the second script *)

(** X16. The escaping of the prompt changes double quotes only: a text
    without a double quote, whatever else it holds (a dollar sign, a
    backquote, a backslash), comes out as it went in. *)
Theorem escape_quotes_without_quote (s : string) :
  contains_char (ascii_of_nat 34) s = false ->
  ClineCliReview.escape_quotes s = s.
Proof.
  induction s as [|c r IH]; [reflexivity|].
  cbn [contains_char ClineCliReview.escape_quotes]. intros H.
  apply orb_false_iff in H as [Hc Hr].
  apply Ascii.eqb_neq in Hc.
  destruct (Nat.eqb_spec (nat_of_ascii c) 34) as [Heq|_].
  - destruct Hc. by rewrite <- (ascii_nat_embedding c), Heq.
  - by rewrite (IH Hr).
Qed.

(** The X16 theorem at a text with a command substitution. *)
Lemma escape_quotes_without_quote_witness :
  ClineCliReview.escape_quotes "42; echo $(id) `id`" = "42; echo $(id) `id`".
Proof.
  apply (escape_quotes_without_quote "42; echo $(id) `id`"). reflexivity.
Defined.

(** X17. The escaping works character by character: the escaped text of a
    concatenation is the concatenation of the escaped texts. *)
Theorem escape_quotes_append (a b : string) :
  ClineCliReview.escape_quotes (a +:+ b) =
    ClineCliReview.escape_quotes a +:+ ClineCliReview.escape_quotes b.
Proof.
  induction a as [|c a IH]; [reflexivity|].
  change (String c a +:+ b) with (String c (a +:+ b)).
  cbn [ClineCliReview.escape_quotes]. rewrite IH.
  by destruct (Nat.eqb (nat_of_ascii c) 34).
Qed.

(** X18. The escaping adds one character, the backslash, for each double
    quote of the text and nothing else. *)
Theorem escape_quotes_length (s : string) :
  String.length (ClineCliReview.escape_quotes s) =
    (String.length s + count_char (ascii_of_nat 34) s)%nat.
Proof.
  induction s as [|c r IH]; [reflexivity|].
  cbn [ClineCliReview.escape_quotes count_char String.length].
  destruct (Nat.eqb_spec (nat_of_ascii c) 34) as [Heq|Hne].
  - assert (Hc : Ascii.eqb c (ascii_of_nat 34) = true).
    { apply Ascii.eqb_eq. by rewrite <- (ascii_nat_embedding c), Heq. }
    rewrite Hc.
    change (backslash +:+ String c (ClineCliReview.escape_quotes r))
      with (String (ascii_of_nat 92) (String c (ClineCliReview.escape_quotes r))).
    cbn [String.length]. rewrite IH. lia.
  - assert (Hc : Ascii.eqb c (ascii_of_nat 34) = false).
    { apply Ascii.eqb_neq. intros ->. by apply Hne. }
    rewrite Hc. cbn [String.length]. rewrite IH. lia.
Qed.

(** The second script after its checks, by what the shell answers to its
    two commands. *)
Lemma cli_run_spec (h : host) (e : gmap string string)
    (key token repository pr sha : string) :
  e !! "ANTHROPIC_API_KEY" = Some key -> key ≠ "" ->
  e !! "GITHUB_TOKEN" = Some token -> token ≠ "" ->
  e !! "GITHUB_REPOSITORY" = Some repository -> repository ≠ "" ->
  e !! "PR_NUMBER" = Some pr -> pr ≠ "" ->
  e !! "HEAD_SHA" = Some sha -> sha ≠ "" ->
  let c := constants_for key token repository pr sha in
  let config := ClineCliReview.config_command (Some key) in
  let task :=
    ClineCliReview.task_command
      (ClineCliReview.REVIEW_PROMPT (owner c) (repo c) (Some pr)
         (Some repository) (Some sha)) in
  let env' := <["GH_TOKEN" := token]> e in
  let configuring :=
    preamble token repository pr
    ++ [Log (nl +:+ "=== Configuring Cline ===");
        Exec config ClineCliReview.config_options] in
  let reviewing :=
    configuring
    ++ [Log "✓ API key configured"; starting_line;
        Exec task (ClineCliReview.task_options h env')] in
  ClineCliReview.run h e =
    match shell h config ClineCliReview.config_options with
    | inl error =>
        match ClineCliReview.error_message error with
        | Value message =>
            (Exit 1,
             {| process_env := env';
                effects :=
                  configuring
                  ++ [LogError ("Failed to configure API key: " +:+ message)] |})
        | Raise error' =>
            (Throw error', {| process_env := env'; effects := configuring |})
        | Unmodelled =>
            (Unknown, {| process_env := env'; effects := configuring |})
        end
    | inr _ =>
        match shell h task (ClineCliReview.task_options h env') with
        | inl error =>
            (Exit 1,
             {| process_env := env';
                effects :=
                  reviewing
                  ++ [LogError (nl +:+ "❌ PR Review failed")]
                  ++ (if falsy (ClineCliReview.error_stdout error) then []
                      else [Log (nl +:+ "Output:");
                            Log (interpolate (ClineCliReview.error_stdout error))])
                  ++ (if falsy (ClineCliReview.error_stderr error) then []
                      else [LogError (nl +:+ "Errors:");
                            LogError
                              (interpolate (ClineCliReview.error_stderr error))])
             |})
        | inr output =>
            (Normal tt,
             {| process_env := env';
                effects :=
                  reviewing
                  ++ [Log output;
                      Log (nl +:+ "✓ PR Review completed successfully")] |})
        end
    end.
Proof.
  intros Hk Hk' Ht Ht' Hr Hr' Hp Hp' Hs Hs' c config task env' configuring
    reviewing.
  unfold ClineCliReview.run, ClineCliReview.main, ClineCliReview.startup,
    bind at 1.
  rewrite (startup_present _ key token repository pr sha) by assumption.
  unfold bind, try_catch, execSync, console_log, console_error, perform,
    current_env, process_exit, when, eval, ret.
  cbn [process_env effects ANTHROPIC_API_KEY].
  fold config. fold env'.
  destruct (shell h config ClineCliReview.config_options) as [error|out].
  - destruct (ClineCliReview.error_message error);
      unfold configuring, preamble; cbn [app];
      repeat rewrite <- app_assoc; reflexivity.
  - cbn [process_env effects].
    change (ClineCliReview.task_command _) with task.
    destruct (shell h task (ClineCliReview.task_options h env')) as [error|output].
    + destruct (falsy (ClineCliReview.error_stdout error)),
               (falsy (ClineCliReview.error_stderr error));
        unfold reviewing, configuring, preamble, starting_line;
        cbn [negb app process_env effects];
        repeat rewrite <- app_assoc; reflexivity.
    + unfold reviewing, configuring, preamble, starting_line;
        cbn [app process_env effects];
        repeat rewrite <- app_assoc; reflexivity.
Qed.

(** X19. When both commands succeed, the second script logs the output
    of the task command and its line of success after the two commands,
    and ends normally (exit code 0).  The task command is run with the
    environment that holds [GH_TOKEN] and in the working directory of the
    process; the configuration command is run without these options. *)
Theorem cli_review_succeeds (h : host) (e : gmap string string)
    (key token repository pr sha configured output : string) :
  e !! "ANTHROPIC_API_KEY" = Some key -> key ≠ "" ->
  e !! "GITHUB_TOKEN" = Some token -> token ≠ "" ->
  e !! "GITHUB_REPOSITORY" = Some repository -> repository ≠ "" ->
  e !! "PR_NUMBER" = Some pr -> pr ≠ "" ->
  e !! "HEAD_SHA" = Some sha -> sha ≠ "" ->
  let c := constants_for key token repository pr sha in
  let config := ClineCliReview.config_command (Some key) in
  let task :=
    ClineCliReview.task_command
      (ClineCliReview.REVIEW_PROMPT (owner c) (repo c) (Some pr)
         (Some repository) (Some sha)) in
  let env' := <["GH_TOKEN" := token]> e in
  shell h config ClineCliReview.config_options = inr configured ->
  shell h task (ClineCliReview.task_options h env') = inr output ->
  exit_code (ClineCliReview.run h e).1 = Some 0
  ∧ ClineCliReview.run h e =
      (Normal tt,
       {| process_env := env';
          effects :=
            preamble token repository pr
            ++ [Log (nl +:+ "=== Configuring Cline ===");
                Exec config
                  {| encoding := "utf8"; stdio := "inherit";
                     exec_env := None; exec_cwd := None |};
                Log "✓ API key configured";
                starting_line;
                Exec task
                  {| encoding := "utf8"; stdio := "pipe";
                     exec_env := Some env';
                     exec_cwd := Some (process_cwd h) |};
                Log output;
                Log (nl +:+ "✓ PR Review completed successfully")] |}).
Proof.
  intros Hk Hk' Ht Ht' Hr Hr' Hp Hp' Hs Hs' c config task env' Hconfig Htask.
  pose proof (cli_run_spec h e key token repository pr sha
                Hk Hk' Ht Ht' Hr Hr' Hp Hp' Hs Hs') as Hrun.
  cbv zeta in Hrun. fold c config task env' in Hrun.
  rewrite Hconfig, Htask in Hrun. rewrite Hrun.
  split; [reflexivity|].
  unfold preamble. cbn [app]. reflexivity.
Qed.

(** The X19 theorem at a shell that answers both commands. *)
Lemma cli_review_succeeds_witness :
  let h := host_of_shell (fun _ _ => inr "Review posted") in
  exit_code (ClineCliReview.run h example_env).1 = Some 0.
Proof.
  intros h.
  apply (cli_review_succeeds h example_env "sk-test" "ghp-test" "cline/cline"
           "42" "abc123" "Review posted" "Review posted");
    (reflexivity || discriminate).
Defined.

(** X20. When the configuration command fails, the second script writes
    the message of the failure to standard error and exits with code 1:
    the task command is never run. *)
Theorem cli_configuration_failure (h : host) (e : gmap string string)
    (key token repository pr sha message : string)
    (stdout stderr : option string) :
  e !! "ANTHROPIC_API_KEY" = Some key -> key ≠ "" ->
  e !! "GITHUB_TOKEN" = Some token -> token ≠ "" ->
  e !! "GITHUB_REPOSITORY" = Some repository -> repository ≠ "" ->
  e !! "PR_NUMBER" = Some pr -> pr ≠ "" ->
  e !! "HEAD_SHA" = Some sha -> sha ≠ "" ->
  let config := ClineCliReview.config_command (Some key) in
  shell h config ClineCliReview.config_options
    = inl (ExecError message stdout stderr) ->
  commands (effects (ClineCliReview.run h e).2) = [config]
  ∧ ClineCliReview.run h e =
      (Exit 1,
       {| process_env := <["GH_TOKEN" := token]> e;
          effects :=
            preamble token repository pr
            ++ [Log (nl +:+ "=== Configuring Cline ===");
                Exec config ClineCliReview.config_options;
                LogError ("Failed to configure API key: " +:+ message)] |}).
Proof.
  intros Hk Hk' Ht Ht' Hr Hr' Hp Hp' Hs Hs' config Hconfig.
  pose proof (cli_run_spec h e key token repository pr sha
                Hk Hk' Ht Ht' Hr Hr' Hp Hp' Hs Hs') as Hrun.
  cbv zeta in Hrun. fold config in Hrun.
  rewrite Hconfig in Hrun. cbn [ClineCliReview.error_message] in Hrun.
  rewrite Hrun. split; [reflexivity|].
  unfold preamble. cbn [app]. reflexivity.
Qed.

(** The X20 theorem at a shell without the command. *)
Lemma cli_configuration_failure_witness :
  let h := host_of_shell
             (fun _ _ => inl (ExecError "cline: command not found" None None)) in
  commands (effects (ClineCliReview.run h example_env).2)
    = ["cline config set api-key=sk-test"]
  ∧ ClineCliReview.run h example_env =
      (Exit 1,
       {| process_env := <["GH_TOKEN" := "ghp-test"]> example_env;
          effects :=
            preamble "ghp-test" "cline/cline" "42"
            ++ [Log (nl +:+ "=== Configuring Cline ===");
                Exec "cline config set api-key=sk-test"
                  ClineCliReview.config_options;
                LogError
                  "Failed to configure API key: cline: command not found"] |}).
Proof.
  intros h.
  apply (cli_configuration_failure h example_env "sk-test" "ghp-test"
           "cline/cline" "42" "abc123" "cline: command not found" None None);
    (reflexivity || discriminate).
Defined.

(** X21. When the task command fails, the second script writes its line
    of failure to standard error, then what the failed command printed:
    its output under [Output:] when there is some, its errors under
    [Errors:] when there are some, and nothing for an empty or absent
    one.  It exits with code 1. *)
Theorem cli_task_failure (h : host) (e : gmap string string)
    (key token repository pr sha configured : string) (error : exn) :
  e !! "ANTHROPIC_API_KEY" = Some key -> key ≠ "" ->
  e !! "GITHUB_TOKEN" = Some token -> token ≠ "" ->
  e !! "GITHUB_REPOSITORY" = Some repository -> repository ≠ "" ->
  e !! "PR_NUMBER" = Some pr -> pr ≠ "" ->
  e !! "HEAD_SHA" = Some sha -> sha ≠ "" ->
  let c := constants_for key token repository pr sha in
  let config := ClineCliReview.config_command (Some key) in
  let task :=
    ClineCliReview.task_command
      (ClineCliReview.REVIEW_PROMPT (owner c) (repo c) (Some pr)
         (Some repository) (Some sha)) in
  let env' := <["GH_TOKEN" := token]> e in
  shell h config ClineCliReview.config_options = inr configured ->
  shell h task (ClineCliReview.task_options h env') = inl error ->
  (ClineCliReview.run h e).1 = Exit 1
  ∧ ∃ before,
      effects (ClineCliReview.run h e).2 =
        before
        ++ [Exec task (ClineCliReview.task_options h env');
            LogError (nl +:+ "❌ PR Review failed")]
        ++ (if falsy (ClineCliReview.error_stdout error) then []
            else [Log (nl +:+ "Output:");
                  Log (interpolate (ClineCliReview.error_stdout error))])
        ++ (if falsy (ClineCliReview.error_stderr error) then []
            else [LogError (nl +:+ "Errors:");
                  LogError (interpolate (ClineCliReview.error_stderr error))]).
Proof.
  intros Hk Hk' Ht Ht' Hr Hr' Hp Hp' Hs Hs' c config task env' Hconfig Htask.
  pose proof (cli_run_spec h e key token repository pr sha
                Hk Hk' Ht Ht' Hr Hr' Hp Hp' Hs Hs') as Hrun.
  cbv zeta in Hrun. fold c config task env' in Hrun.
  rewrite Hconfig, Htask in Hrun. rewrite Hrun.
  split; [reflexivity|].
  exists (preamble token repository pr
          ++ [Log (nl +:+ "=== Configuring Cline ===");
              Exec config ClineCliReview.config_options;
              Log "✓ API key configured"; starting_line]).
  cbn [snd effects]. repeat rewrite <- app_assoc. reflexivity.
Qed.

(** The X21 theorem at a shell whose task command fails with some output
    and no errors. *)
Lemma cli_task_failure_witness :
  let error := ExecError "Command failed" (Some "partial review") (Some "") in
  let h := host_of_shell
             (fun _ opts =>
                if String.eqb (stdio opts) "inherit" then inr "" else inl error) in
  (ClineCliReview.run h example_env).1 = Exit 1
  ∧ ∃ before task opts,
      effects (ClineCliReview.run h example_env).2 =
        before
        ++ [Exec task opts;
            LogError (nl +:+ "❌ PR Review failed");
            Log (nl +:+ "Output:");
            Log "partial review"].
Proof.
  intros error h.
  destruct (cli_task_failure h example_env "sk-test" "ghp-test" "cline/cline"
              "42" "abc123" "" error)
    as (Hexit & before & Heff); try (reflexivity || discriminate).
  split; [exact Hexit|].
  eexists before, _, _. exact Heff.
Defined.

(** *** Further properties: the cost line *)






